(** * Admin authentication of shopify-app-remix: a shallow embedding

    The development follows
    - [src/auth/login/login.ts] (the login helper),
    - [src/server/authenticate/admin/strategies/auth-code-flow.ts]
      (the OAuth routes of [AuthCodeFlowStrategy]),
    - [src/server/authenticate/admin/helpers/trigger-after-auth-hook.ts],
    - [src/server/authenticate/admin/authenticate.ts] ([AuthStrategy]).

    Asynchronous functions are run to completion one after the other, so
    a [Promise] is modelled by the computation it resolves or rejects
    with.  A [throw] is an explicit outcome; the session storage and the
    calls made to the redirect helpers and to the afterAuth hook are
    threaded as state.  Calls to the logger are left out. *)

From Stdlib Require Import ZArith Ascii String.
From stdpp Require Import base gmap strings list.

Local Open Scope string_scope.
Local Open Scope Z_scope.

(** ** Strings, as the JavaScript string methods use them *)

Module Str.

(** [s.startsWith(p)] *)
Fixpoint startsWith (p s : string) : bool :=
  match p, s with
  | EmptyString, _ => true
  | String a p', String b s' => Ascii.eqb a b && startsWith p' s'
  | String _ _, EmptyString => false
  end.

(** [s.slice(n)] *)
Fixpoint drop (n : nat) (s : string) : string :=
  match n, s with
  | O, _ => s
  | S n', String _ s' => drop n' s'
  | S _, EmptyString => EmptyString
  end.

(** [s.indexOf(c) !== -1] for a one-character string [c] *)
Fixpoint includes (c : ascii) (s : string) : bool :=
  match s with
  | EmptyString => false
  | String b s' => Ascii.eqb b c || includes c s'
  end.

(** The first element of [s.split(c)]. *)
Fixpoint beforeFirst (c : ascii) (s : string) : string :=
  match s with
  | EmptyString => EmptyString
  | String b s' => if Ascii.eqb b c then EmptyString else String b (beforeFirst c s')
  end.

(** [s.replace(/^https?:\/\//, '')]: the pattern is anchored, so at most
    one occurrence, at the start, is removed. *)
Definition stripProtocol (s : string) : string :=
  if startsWith "https://" s then drop 8 s
  else if startsWith "http://" s then drop 7 s
  else s.

(** [s.endsWith(p)] *)
Fixpoint endsWith (p s : string) : bool :=
  String.eqb s p
  || match s with
     | EmptyString => false
     | String _ s' => endsWith p s'
     end.

Definition lowerAscii (c : ascii) : ascii :=
  let n := nat_of_ascii c in
  if (65 <=? n)%nat && (n <=? 90)%nat then ascii_of_nat (n + 32) else c.

Fixpoint lower (s : string) : string :=
  match s with
  | EmptyString => EmptyString
  | String c s' => String (lowerAscii c) (lower s')
  end.

End Str.

(** JavaScript truthiness of a [string | null] value: [null] and the empty
    string are falsy. *)
Definition truthy (o : option string) : bool :=
  match o with
  | Some s => negb (String.eqb s "")
  | None => false
  end.

(** [a || b] on [string | null] values. *)
Definition orElse (a b : option string) : option string :=
  if truthy a then a else b.

(** First value bound to [k] in a list of pairs: [URLSearchParams.get],
    [FormData.get]. *)
Fixpoint assoc (k : string) (l : list (string * string)) : option string :=
  match l with
  | [] => None
  | (k', v) :: l' => if String.eqb k' k then Some v else assoc k l'
  end.

(** ** Requests and responses *)

(** A [URL] object: [search] is [url.search], the query as it is written
    (with its question mark, or empty); [searchParams] holds its pairs. *)
Record URL := {
  hostname : string;
  pathname : string;
  search : string;
  searchParams : list (string * string)
}.

(** A [Request]: [url] is [new URL(request.url)]; header names are kept in
    lower case, as a [Headers] object does; [formData] is what
    [request.formData()] resolves with, [None] when it rejects. *)
Record Request := {
  method : string;
  url : URL;
  headers : list (string * string);
  formData : option (list (string * string))
}.

Definition searchParams_get (u : URL) (k : string) : option string :=
  assoc k (searchParams u).

(** [request.headers.get(name)]: header names compare without case. *)
Definition headers_get (r : Request) (name : string) : option string :=
  assoc (Str.lower name) (headers r).

Record Response := {
  status : Z;
  statusText : string;
  responseHeaders : list (string * string);
  body : option string
}.

(** [redirect(url)] of @remix-run/server-runtime: status 302 and a
    [Location] header. *)
Definition redirect (location : string) : Response :=
  {| status := 302; statusText := ""; responseHeaders := [("Location", location)];
     body := None |}.

Definition location (r : Response) : option string :=
  assoc "Location" (responseHeaders r).

(** ** Thrown values and outcomes *)

(** The error classes the code tests with [instanceof]; [OtherError] is any
    other [Error]. *)
Inductive Error :=
  | CookieNotFound
  | InvalidHmacError
  | InvalidOAuthError
  | ShopifyError
  | HttpResponseError (code : Z) (text : string) (responseBody : string)
  | GraphqlQueryError (message : string) (response : option string)
  | OtherError (message : string).

(** What a [throw] carries: the code throws [Response] objects as control
    flow, and errors. *)
Inductive Thrown :=
  | ThrownResponse (r : Response)
  | ThrownError (e : Error).

Inductive Outcome (A : Type) :=
  | Returned (a : A)
  | Threw (t : Thrown).
Arguments Returned {A} a.
Arguments Threw {A} t.

(** ** Sessions, tokens and the configuration *)

(** The fields of a [Session] of @shopify/shopify-api that the code reads. *)
Record Session := {
  id : string;
  shop : string;
  isOnline : bool;
  scope : list string;
  expires : option Z
}.

(** A decoded session token; [dest] is kept as [new URL(payload.dest)]. *)
Record JwtPayload := {
  dest : URL;
  sub : string
}.

Record SessionContext := {
  session : Session;
  token : option JwtPayload
}.

Record ShopWithSessionContext := {
  sessionContext : option SessionContext;
  shopOf : option string
}.

(** The session storage behind [config.sessionStorage]: records keyed by
    their identifier. *)
Definition Storage : Type := gmap string Session.

(** [config.hooks.afterAuth]: code of the integrator.  It may use the
    storage and may throw. *)
Definition AfterAuthHook : Type := Session -> Storage -> option Thrown * Storage.

Record AuthPaths := {
  path : string;
  callbackPath : string;
  loginPath : string;
  patchSessionTokenPath : string;
  exitIframePath : string
}.

Record AppConfig := {
  isEmbeddedApp : bool;
  useOnlineTokens : bool;
  scopes : list string;
  apiKey : string;
  appUrl : string;
  auth : AuthPaths;
  afterAuth : option AfterAuthHook
}.

(** What the code under study calls and does not define: the [api] object
    of @shopify/shopify-api, the helpers of [server/authenticate/helpers]
    and the serialisation of URLs by the runtime.  The theorems quantify
    over them. *)
Record Env := {
  (** [api.config.isEmbeddedApp] *)
  apiIsEmbeddedApp : bool;
  (** [api.utils.sanitizeShop], [api.utils.sanitizeHost] on a string *)
  sanitizeShop : string -> option string;
  sanitizeHost : string -> option string;
  (** [api.session.getOfflineId], [getJwtSessionId], [getCurrentId] *)
  getOfflineId : string -> string;
  getJwtSessionId : string -> string -> string;
  getCurrentId : bool -> Request -> option string;
  (** [session.isActive(scopes)] *)
  isActive : Session -> list string -> bool;
  (** [api.auth.callback]: the error it throws, or the session and the
      response headers of the exchange *)
  authCallback : Request -> Error + Session * list (string * string);
  (** the address [api.auth.begin] redirects to, for a shop value and the
      online flag *)
  authorizeUrl : option string -> bool -> string;
  (** [api.auth.getEmbeddedAppUrl] *)
  embeddedAppUrl : Request -> string;
  (** the error of the GraphQL query of [testSession], if any *)
  testQuery : Session -> option Error;
  (** [getSessionTokenHeader] *)
  getSessionTokenHeader : Request -> option string;
  (** [validateSessionToken]: the payload, or the response it ends the
      request with *)
  validateSessionToken : string -> Response + JwtPayload;
  (** [renderAppBridge]: the page, with or without a [redirectTo] target *)
  renderAppBridge : Request -> option (option string) -> Response;
  (** the policy and the answer of [rejectBotRequest], the answer of
      [respondToOptionsRequest], the headers [cors] adds *)
  isBot : Request -> bool;
  botResponse : Response;
  preflightResponse : Response;
  corsHeaders : Request -> list (string * string);
  (** percent-encoding of one component of a query string *)
  encodeComponent : string -> string
}.

(** ** State and control *)

(** The calls a request makes that are visible outside it. *)
Inductive Call :=
  | BeginAuth (shop : option string) (online : bool)
  | ExitIframe (shop : option string)
  | ShopifyOrAppRoot
  | AfterAuth (s : Session).

Record World := {
  storage : gmap string Session;
  calls : list Call
}.

(** A computation that returns or throws, on a world it may change. *)
Definition M (A : Type) : Type := World -> Outcome A * World.

Definition ret {A} (a : A) : M A := fun w => (Returned a, w).

Definition bind {A B} (m : M A) (k : A -> M B) : M B :=
  fun w =>
    match m w with
    | (Returned a, w') => k a w'
    | (Threw t, w') => (Threw t, w')
    end.

Definition throw {A} (t : Thrown) : M A := fun w => (Threw t, w).

(** [try { m } catch (e) { h e }] *)
Definition tryCatch {A} (m : M A) (h : Thrown -> M A) : M A :=
  fun w =>
    match m w with
    | (Returned a, w') => (Returned a, w')
    | (Threw t, w') => h t w'
    end.

Declare Scope auth_scope.
Delimit Scope auth_scope with auth.
Notation "'let!' x ':=' m 'in' k" := (bind m (fun x => k))
  (at level 10, x name, m at level 100, k at level 200) : auth_scope.
Notation "m >>> k" := (bind m (fun _ => k))
  (at level 90, right associativity) : auth_scope.
Local Open Scope auth_scope.

Definition throwResponse {A} (r : Response) : M A := throw (ThrownResponse r).
Definition throwError {A} (e : Error) : M A := throw (ThrownError e).

Definition record (c : Call) : M unit :=
  fun w => (Returned tt, {| storage := storage w; calls := calls w ++ [c] |}).

(** [config.sessionStorage.loadSession(id)], of a storage that answers: a
    load that rejects is outside the model. *)
Definition loadSession (sessionId : string) : M (option Session) :=
  fun w => (Returned (storage w !! sessionId), w).

(** [config.sessionStorage.storeSession(session)] *)
Definition storeSession (s : Session) : M bool :=
  fun w => (Returned true, {| storage := <[id s := s]> (storage w); calls := calls w |}).

(** [o === s] for a [string | null] value [o] *)
Definition isString (o : option string) (s : string) : bool :=
  match o with
  | Some v => String.eqb v s
  | None => false
  end.

(** A function of the api called on [x!]: the assertion is erased at run
    time, and a [null] argument matches no grammar. *)
Definition onParam (f : string -> option string) (o : option string) : option string :=
  match o with
  | Some s => f s
  | None => None
  end.

(** A query parameter that is missing, or that the sanitizer refuses. *)
Definition missingOrInvalid (f : string -> option string) (o : option string) : bool :=
  negb (truthy (onParam f o)).

(** ** The login helper ([src/auth/login/login.ts]) *)

Module Login.

Inductive LoginErrorType := MissingShop | InvalidShop.

(** The object [{shop: ...}] that [login] returns. *)
Record LoginError := { shopError : LoginErrorType }.

Section WithParams.

Variable env : Env.
Variable config : AppConfig.

(** [shopWithDomain]: the protocol is stripped; the suffix is added
    when [shop] (as it was given) holds no dot. *)
Definition shopWithDomain (shop : string) : string :=
  let shopWithoutProtocol := Str.stripProtocol shop in
  if negb (Str.includes "." shop)
  then shopWithoutProtocol +:+ ".myshopify.com"
  else shopWithoutProtocol.

(** [sanitizedShop], the normalised shop or [null]. *)
Definition normalizeShop (shop : string) : option string :=
  sanitizeShop env (shopWithDomain shop).

(** [normalize(normalize(s))], [null] when the first pass gives [null]. *)
Definition normalizeTwice (shop : string) : option string :=
  match normalizeShop shop with
  | Some r => normalizeShop r
  | None => None
  end.

(** The body of [login] once [shop] is known to be a non-empty string. *)
Definition loginWithShop (shop : string) : Outcome LoginError :=
  let sanitizedShop := normalizeShop shop in
  if negb (truthy sanitizedShop) then Returned {| shopError := InvalidShop |}
  else
    match sanitizedShop with
    | Some sanitized =>
        let shopWithoutDot := Str.beforeFirst "." sanitized in
        let redirectUrl :=
          "https://admin.shopify.com/store/" +:+ shopWithoutDot +:+ "/apps/" +:+ apiKey config in
        Threw (ThrownResponse (redirect redirectUrl))
    | None => Returned {| shopError := InvalidShop |}
    end.

(** [shop]: the field of the form when it is set, the query parameter
    otherwise. *)
Definition requestedShop (request : Request) (form : list (string * string)) : option string :=
  if truthy (assoc "shop" form) then assoc "shop" form
  else searchParams_get (url request) "shop".

Definition login (request : Request) : Outcome LoginError :=
  match formData request with
  | None => Threw (ThrownError (OtherError "formData"))
  | Some form =>
      match requestedShop request form with
      | Some s =>
          if String.eqb s "" then Returned {| shopError := MissingShop |}
          else loginWithShop s
      | None => Returned {| shopError := MissingShop |}
      end
  end.

End WithParams.

End Login.

(** ** The helpers of [server/authenticate/admin/helpers] *)

Module Helpers.

Section WithParams.

Variable env : Env.
Variable config : AppConfig.

(** Modelled from the spec: the helper [beginAuth] of admin/helpers is
    missing from the sources.  Section 4.4: it "constructs and issues (throws as
    control-flow, i.e. terminates the handler with) a redirect to the
    platform's authorization URL", carrying the tenant and the
    online/offline intent, and "never returns normally". *)
Definition beginAuth {A} (request : Request) (online : bool) (shop : option string) : M A :=
  record (BeginAuth shop online) >>>
  throwResponse (redirect (authorizeUrl env shop online)).

(** Modelled from the spec: the helper [redirectWithExitIframe] of
    admin/helpers is missing from the sources.  Section 4.5, cases 2 and 3: a redirect
    "through the exit-iframe page with destination set to the authorize
    URL", the destination being "carried in a parameter" (the one
    [handleExitIframeRoute] reads). *)
Definition redirectWithExitIframe {A} (request : Request) (shop : option string) : M A :=
  record (ExitIframe shop) >>>
  throwResponse
    (redirect (exitIframePath (auth config) +:+ "?exitIframe="
               +:+ encodeComponent env (authorizeUrl env shop false))).

(** Modelled from the spec: the helper [redirectToAuthPage] of
    admin/helpers is missing from the sources.  Section 4.6, step 3:
    "redirect to OAuth begin for that tenant"; section 4.5, case 3: when
    OAuth begins "while already embedded in an iframe (detected via a
    fetch-metadata header signaling iframe context) and the app is
    configured as embedded", the redirect goes "through the exit-iframe
    page". *)
Definition redirectToAuthPage {A} (request : Request) (shop : option string) : M A :=
  if isEmbeddedApp config && isString (headers_get request "Sec-Fetch-Dest") "iframe"
  then redirectWithExitIframe request shop
  else beginAuth request false shop.

(** Modelled from the spec: the helper [redirectToShopifyOrAppRoot] of
    admin/helpers is missing from the sources.  Sections 4.4 and 4.5, case 4: it
    "redirects either to the platform's admin surface or the app's own
    root, carrying forward any response headers set during exchange". *)
Definition redirectToShopifyOrAppRoot {A} (request : Request)
    (responseHeaders : list (string * string)) : M A :=
  let target := if isEmbeddedApp config then embeddedAppUrl env request else "/" in
  record ShopifyOrAppRoot >>>
  throwResponse
    {| status := 302; statusText := "";
       responseHeaders := ("Location", target) :: responseHeaders;
       body := None |}.

(** Modelled from the spec: [ensureCORSHeadersFactory] of
    authenticate/helpers is missing from the sources.  Section 4.6: the
    function it returns attaches the CORS headers to a response. *)
Definition cors (request : Request) (r : Response) : Response :=
  {| status := status r; statusText := statusText r;
     responseHeaders := responseHeaders r ++ corsHeaders env request;
     body := body r |}.

(** Modelled from the spec: [rejectBotRequest] of authenticate/helpers is
    missing from the sources.  Section 4.8: a "pure predicate + early
    response", the policy being defined outside. *)
Definition rejectBotRequest (request : Request) : M unit :=
  if isBot env request then throwResponse (botResponse env) else ret tt.

(** Modelled from the spec: [respondToOptionsRequest] of
    authenticate/helpers is missing from the sources.  Section 4.6, step 1:
    it ends the request with the "OPTIONS preflight response". *)
Definition respondToOptionsRequest (request : Request) : M unit :=
  if String.eqb (method request) "OPTIONS"
  then throwResponse (cors request (preflightResponse env))
  else ret tt.

(** Modelled from the spec: [getSessionTokenFromUrlParam] of
    authenticate/helpers is missing from the sources.  Section 6: the
    session token comes in the "[id_token] query parameter". *)
Definition getSessionTokenFromUrlParam (request : Request) : option string :=
  searchParams_get (url request) "id_token".

(** [triggerAfterAuthHook] (trigger-after-auth-hook.ts) *)
Definition triggerAfterAuthHook (s : Session) (request : Request) : M unit :=
  match afterAuth config with
  | Some hook =>
      record (AfterAuth s) >>>
      (fun w =>
         let (thrown, st) := hook s (storage w) in
         (match thrown with
          | Some t => Threw t
          | None => Returned tt
          end,
          {| storage := st; calls := calls w |}))
  | None => ret tt
  end.

End WithParams.

End Helpers.

(** ** [AuthCodeFlowStrategy] (auth-code-flow.ts) *)

Module AuthCodeFlowStrategy.

Import Helpers.

Section WithParams.

Variable env : Env.
Variable config : AppConfig.

Definition manageAccessToken (sessionContext : option SessionContext)
    (shop : option string) (request : Request) : M SessionContext :=
  match sessionContext with
  | Some ctx =>
      if negb (isActive env (session ctx) (scopes config))
      then redirectToAuthPage env config request shop
      else ret ctx
  | None => redirectToAuthPage env config request shop
  end.

Definition handleBouncePageRoute (request : Request) : M unit :=
  if String.eqb (pathname (url request)) (patchSessionTokenPath (auth config))
  then throwResponse (renderAppBridge env request None)
  else ret tt.

Definition handleExitIframeRoute (request : Request) : M unit :=
  if String.eqb (pathname (url request)) (exitIframePath (auth config))
  then
    let destination := searchParams_get (url request) "exitIframe" in
    throwResponse (renderAppBridge env request (Some destination))
  else ret tt.

Definition handleAuthBeginRequest {A} (request : Request) (shop : string) : M A :=
  if isEmbeddedApp config && isString (headers_get request "Sec-Fetch-Dest") "iframe"
  then redirectWithExitIframe env config request (Some shop)
  else beginAuth env request false (Some shop).

Definition oauthCallbackError (error : Error) (request : Request) (shop : string) : M Response :=
  match error with
  | CookieNotFound => handleAuthBeginRequest request shop
  | InvalidHmacError | InvalidOAuthError =>
      ret {| status := 400; statusText := "Invalid OAuth Request";
             responseHeaders := []; body := None |}
  | _ =>
      ret {| status := 500; statusText := "Internal Server Error";
             responseHeaders := []; body := None |}
  end.

(** The [try] block of [handleAuthCallbackRequest]. *)
Definition callbackAttempt {A} (request : Request) (shop : string) : M A :=
  match authCallback env request with
  | inl e => throwError e
  | inr (s, responseHeaders) =>
      storeSession s >>>
      (if useOnlineTokens config && negb (isOnline s)
       then beginAuth env request true (Some shop)
       else ret tt) >>>
      triggerAfterAuthHook config s request >>>
      redirectToShopifyOrAppRoot env config request responseHeaders
  end.

(** Its [catch] block. *)
Definition callbackRecovery {A} (request : Request) (shop : string) (error : Thrown) : M A :=
  match error with
  | ThrownResponse _ => throw error
  | ThrownError e =>
      let! r := oauthCallbackError e request shop in
      throwResponse r
  end.

Definition handleAuthCallbackRequest {A} (request : Request) (shop : string) : M A :=
  tryCatch (callbackAttempt request shop) (callbackRecovery request shop).

Definition handleOAuthRoutes (request : Request) : M unit :=
  let isAuthRequest := String.eqb (pathname (url request)) (path (auth config)) in
  let isAuthCallbackRequest :=
    String.eqb (pathname (url request)) (callbackPath (auth config)) in
  if negb isAuthRequest && negb isAuthCallbackRequest then ret tt
  else
    let shop := onParam (sanitizeShop env) (searchParams_get (url request) "shop") in
    match shop with
    | Some s =>
        if String.eqb s ""
        then throwResponse {| status := 400; statusText := ""; responseHeaders := [];
                              body := Some "Shop param is invalid" |}
        else if isAuthRequest then handleAuthBeginRequest request s
        else if isAuthCallbackRequest then handleAuthCallbackRequest request s
        else ret tt
    | None =>
        throwResponse {| status := 400; statusText := ""; responseHeaders := [];
                         body := Some "Shop param is invalid" |}
    end.

Definition handleRoutes (request : Request) : M unit :=
  handleBouncePageRoute request >>>
  handleExitIframeRoute request >>>
  handleOAuthRoutes request.

(** Whether the path of the request is one of the four that
    [handleRoutes] answers. *)
Definition isRoute (request : Request) : bool :=
  String.eqb (pathname (url request)) (patchSessionTokenPath (auth config))
  || String.eqb (pathname (url request)) (exitIframePath (auth config))
  || String.eqb (pathname (url request)) (path (auth config))
  || String.eqb (pathname (url request)) (callbackPath (auth config)).

(** The call and the response [handleAuthBeginRequest] ends with: one
    of the two ways to begin OAuth. *)
Definition beginCall (request : Request) (shop : string) : Call :=
  if isEmbeddedApp config && isString (headers_get request "Sec-Fetch-Dest") "iframe"
  then ExitIframe (Some shop)
  else BeginAuth (Some shop) false.

Definition beginResponse (request : Request) (shop : string) : Response :=
  if isEmbeddedApp config && isString (headers_get request "Sec-Fetch-Dest") "iframe"
  then redirect (exitIframePath (auth config) +:+ "?exitIframe="
                 +:+ encodeComponent env (authorizeUrl env (Some shop) false))
  else redirect (authorizeUrl env (Some shop) false).

End WithParams.

(** The three classes of errors [oauthCallbackError] tells apart. *)
Inductive ErrorClass := RestartBegin | BadRequest | ServerError.

Definition classify (e : Error) : ErrorClass :=
  match e with
  | CookieNotFound => RestartBegin
  | InvalidHmacError | InvalidOAuthError => BadRequest
  | _ => ServerError
  end.

End AuthCodeFlowStrategy.

(** ** [AuthStrategy] (authenticate.ts) *)

Module AuthStrategy.

Import Helpers.

(** The context [authenticateAdmin] returns.  The [admin], [billing],
    [cors] and [redirect] members are closures over the request and the
    session; the embedded shape adds the session token. *)
Inductive AdminContext :=
  | EmbeddedAdminContext (s : Session) (sessionToken : option JwtPayload)
  | NonEmbeddedAdminContext (s : Session).

Definition contextSession (c : AdminContext) : Session :=
  match c with
  | EmbeddedAdminContext s _ => s
  | NonEmbeddedAdminContext s => s
  end.

Section WithParams.

Variable env : Env.
Variable config : AppConfig.

(** The serialisation of the pairs of a query. *)
Fixpoint serialize (l : list (string * string)) : string :=
  match l with
  | [] => ""
  | (k, v) :: l' =>
      let pair := encodeComponent env k +:+ "=" +:+ encodeComponent env v in
      match l' with
      | [] => pair
      | _ :: _ => pair +:+ "&" +:+ serialize l'
      end
  end.

(** [url.search] once [url.searchParams] has been written to: the
    serialised pairs, with the question mark. *)
Definition serializedSearch (l : list (string * string)) : string :=
  match l with
  | [] => ""
  | _ :: _ => "?" +:+ serialize l
  end.

Fixpoint removeParam (k : string) (l : list (string * string)) : list (string * string) :=
  match l with
  | [] => []
  | (k', v') :: l' =>
      if String.eqb k' k then removeParam k l' else (k', v') :: removeParam k l'
  end.

(** [url.searchParams.set(k, v)] *)
Fixpoint setParam (k v : string) (l : list (string * string)) : list (string * string) :=
  match l with
  | [] => [(k, v)]
  | (k', v') :: l' =>
      if String.eqb k' k then (k, v) :: removeParam k l' else (k', v') :: setParam k v l'
  end.

Definition validateUrlParams (request : Request) : M unit :=
  if isEmbeddedApp config then
    let shop := onParam (sanitizeShop env) (searchParams_get (url request) "shop") in
    if negb (truthy shop) then throwResponse (redirect (loginPath (auth config)))
    else
      let host := onParam (sanitizeHost env) (searchParams_get (url request) "host") in
      if negb (truthy host) then throwResponse (redirect (loginPath (auth config)))
      else ret tt
  else ret tt.

Definition getOfflineToken (request : Request) : M (option Session) :=
  let shop := searchParams_get (url request) "shop" in
  let offlineId :=
    match shop with
    | Some s => if String.eqb s "" then getCurrentId env false request
                else Some (getOfflineId env s)
    | None => getCurrentId env false request
    end in
  match offlineId with
  | Some i =>
      if String.eqb i ""
      then throwResponse {| status := 400; statusText := "Bad Request";
                            responseHeaders := []; body := None |}
      else loadSession i
  | None =>
      throwResponse {| status := 400; statusText := "Bad Request";
                       responseHeaders := []; body := None |}
  end.

Definition handleInvalidOfflineSession (error : Error) (request : Request)
    (shop : string) : M unit :=
  match error with
  | HttpResponseError code text _ =>
      if code =? 401 then beginAuth env request false (Some shop)
      else throwResponse {| status := code; statusText := text;
                            responseHeaders := []; body := None |}
  | GraphqlQueryError _ _ =>
      throwResponse {| status := 500; statusText := "Internal Server Error";
                       responseHeaders := []; body := None |}
  | _ => ret tt
  end.

Definition testSession (s : Session) : M unit :=
  match testQuery env s with
  | Some e => throwError e
  | None => ret tt
  end.

Definition ensureInstalledOnShop (request : Request) : M unit :=
  let shopParam := searchParams_get (url request) "shop" in
  let! offlineSession := getOfflineToken request in
  let isEmbedded := isString (searchParams_get (url request) "embedded") "1" in
  match offlineSession with
  | None =>
      if isEmbedded then redirectWithExitIframe env config request shopParam
      else beginAuth env request false shopParam
  | Some offline =>
      let shop' := if truthy shopParam then default "" shopParam else shop offline in
      if isEmbeddedApp config && negb isEmbedded then
        tryCatch (testSession offline)
          (fun thrown =>
             match thrown with
             | ThrownError e => handleInvalidOfflineSession e request shop'
             | ThrownResponse _ => ret tt
             end)
      else ret tt
  end.

Definition ensureAppIsEmbeddedIfRequired (request : Request) : M unit :=
  if apiIsEmbeddedApp env && negb (isString (searchParams_get (url request) "embedded") "1")
  then redirectToShopifyOrAppRoot env config request []
  else ret tt.

Definition redirectToBouncePage {A} (u : URL) : M A :=
  let reload := appUrl config +:+ pathname u +:+ search u in
  let params := setParam "shopify-reload" reload (searchParams u) in
  let u' := {| hostname := hostname u; pathname := pathname u;
               search := serializedSearch params; searchParams := params |} in
  throwResponse (redirect (patchSessionTokenPath (auth config) +:+ search u')).

Definition ensureSessionTokenSearchParamIfRequired (request : Request) : M unit :=
  let searchParamSessionToken := searchParams_get (url request) "id_token" in
  if apiIsEmbeddedApp env && negb (truthy searchParamSessionToken)
  then redirectToBouncePage (url request)
  else ret tt.

Definition getShopFromSessionToken (payload : JwtPayload) : string :=
  hostname (dest payload).

(** The identifier of the session a token stands for: of the user's
    session with online tokens, of the shop's offline session without. *)
Definition tokenSessionId (payload : JwtPayload) : string :=
  let shop := getShopFromSessionToken payload in
  if useOnlineTokens config
  then getJwtSessionId env shop (sub payload)
  else getOfflineId env shop.

(** The three branches of [getAuthenticatedSession]. *)
Inductive SessionSource :=
  | FromSessionToken (sessionToken : string)
  | FromCurrentId
  | NoSource.

Definition sessionSource (request : Request) : SessionSource :=
  let sessionToken :=
    orElse (getSessionTokenHeader env request) (getSessionTokenFromUrlParam request) in
  if isEmbeddedApp config && truthy sessionToken
  then FromSessionToken (default "" sessionToken)
  else if negb (isEmbeddedApp config) then FromCurrentId
  else NoSource.

Definition getAuthenticatedSession (request : Request) : M ShopWithSessionContext :=
  let! found :=
    match sessionSource request with
    | FromSessionToken sessionToken =>
        match validateSessionToken env sessionToken with
        | inr payload =>
            let shop := getShopFromSessionToken payload in
            let sessionId := tokenSessionId payload in
            ret (Some shop, Some sessionId, Some payload)
        | inl response => throwResponse response
        end
    | FromCurrentId =>
        let shop := searchParams_get (url request) "shop" in
        let sessionId := getCurrentId env (useOnlineTokens config) request in
        ret (shop, sessionId, None)
    | NoSource => throwError ShopifyError
    end in
  let '(shop, sessionId, payload) := found in
  if negb (truthy sessionId) then ret {| sessionContext := None; shopOf := shop |}
  else
    let! loaded := loadSession (default "" sessionId) in
    ret {| sessionContext :=
             match loaded with
             | Some s => Some {| session := s; token := payload |}
             | None => None
             end;
           shopOf := shop |}.

(** What a session context found for a request stands on: the token that
    was validated, or the current identifier, and the record stored under
    the identifier they give. *)
Definition foundFrom (request : Request) (w : World) (ctx : SessionContext) : Prop :=
  match sessionSource request with
  | FromSessionToken tok =>
      exists payload,
        validateSessionToken env tok = inr payload
        /\ token ctx = Some payload
        /\ storage w !! tokenSessionId payload = Some (session ctx)
  | FromCurrentId =>
      exists sid,
        getCurrentId env (useOnlineTokens config) request = Some sid
        /\ token ctx = None
        /\ storage w !! sid = Some (session ctx)
  | NoSource => False
  end.

Definition ensureSessionExists (request : Request) : M SessionContext :=
  let! shopWithSessionContext := getAuthenticatedSession request in
  match sessionContext shopWithSessionContext with
  | Some ctx =>
      if negb (isActive env (session ctx) (scopes config))
      then redirectToAuthPage env config request (shopOf shopWithSessionContext)
      else ret ctx
  | None => redirectToAuthPage env config request (shopOf shopWithSessionContext)
  end.

Definition authenticateAndGetSessionContext (request : Request) : M SessionContext :=
  AuthCodeFlowStrategy.handleRoutes env config request >>>
  let sessionTokenHeader := getSessionTokenHeader env request in
  if truthy sessionTokenHeader then
    let! found := getAuthenticatedSession request in
    AuthCodeFlowStrategy.manageAccessToken env config
      (sessionContext found) (shopOf found) request
  else
    validateUrlParams request >>>
    ensureInstalledOnShop request >>>
    ensureAppIsEmbeddedIfRequired request >>>
    ensureSessionTokenSearchParamIfRequired request >>>
    ensureSessionExists request.

Definition authenticateAdmin (request : Request) : M AdminContext :=
  rejectBotRequest env request >>>
  respondToOptionsRequest env request >>>
  let! ctx :=
    tryCatch (authenticateAndGetSessionContext request)
      (fun errorOrResponse =>
         match errorOrResponse with
         | ThrownResponse r => throw (ThrownResponse (cors env request r))
         | ThrownError _ => throw errorOrResponse
         end) in
  if isEmbeddedApp config
  then ret (EmbeddedAdminContext (session ctx) (token ctx))
  else ret (NonEmbeddedAdminContext (session ctx)).

End WithParams.

End AuthStrategy.

(** ** The domain grammar of shops *)

Module ShopGrammar.

Definition isAlnum (c : ascii) : bool :=
  let n := nat_of_ascii c in
  ((48 <=? n)%nat && (n <=? 57)%nat)
  || ((65 <=? n)%nat && (n <=? 90)%nat)
  || ((97 <=? n)%nat && (n <=? 122)%nat).

Definition isLabelChar (c : ascii) : bool :=
  isAlnum c || Ascii.eqb c "-".

(** A non-empty label followed by the suffix. *)
Fixpoint shopGrammar (s : string) : bool :=
  match s with
  | EmptyString => false
  | String c rest =>
      isLabelChar c && (String.eqb rest ".myshopify.com" || shopGrammar rest)
  end.

(** Modelled from the spec: [api.utils.sanitizeShop] of
    @shopify/shopify-api is missing from the sources.
    Section 4.1: the result is run "through a domain-grammar check
    (alphanumeric/hyphen label structure, correct suffix)"; the output is
    the identifier "or a null/invalid signal", and it "never throws for
    malformed input". *)
Definition sanitizeShop (s : string) : option string :=
  if shopGrammar s then Some s else None.

End ShopGrammar.

(** What the login helper needs of [api.utils.sanitizeShop]: a name it
    returns is returned again when it is checked again, holds a dot and
    carries no protocol. *)
Class DomainCheck (sanitize : string -> option string) : Prop := {
  check_fixed : forall x r, sanitize x = Some r -> sanitize r = Some r;
  check_dotted : forall x r, sanitize x = Some r -> Str.includes "." r = true;
  check_bare : forall x r, sanitize x = Some r -> Str.stripProtocol r = r
}.

(** ** A sample application, to run the definitions on *)

Module Sample.

Definition paths : AuthPaths :=
  {| path := "/auth"; callbackPath := "/auth/callback"; loginPath := "/auth/login";
     patchSessionTokenPath := "/auth/session-token"; exitIframePath := "/auth/exit-iframe" |}.

Definition config (embedded online : bool) : AppConfig :=
  {| isEmbeddedApp := embedded; useOnlineTokens := online; scopes := ["read_products"];
     apiKey := "sample-key"; appUrl := "https://app.example"; auth := paths;
     afterAuth := Some (fun _ st => (None, st)) |}.

Definition now : Z := 1000.

(** Modelled from the spec: [Session.isActive] of @shopify/shopify-api
    is missing from the sources.
    Section 8, property 2: it is false "whenever now >= expiry OR
    requiredScopes ⊄ grantedScopes, and true otherwise". *)
Definition active (s : Session) (required : list string) : bool :=
  match expires s with
  | Some e => now <? e
  | None => true
  end
  && forallb (fun r => existsb (String.eqb r) (scope s)) required.

Definition offlineSession : Session :=
  {| id := "offline_test-shop.myshopify.com"; shop := "test-shop.myshopify.com";
     isOnline := false; scope := ["read_products"]; expires := None |}.

Definition onlineSession : Session :=
  {| id := "test-shop.myshopify.com_42"; shop := "test-shop.myshopify.com";
     isOnline := true; scope := ["read_products"]; expires := Some 2000 |}.

Definition payload : JwtPayload :=
  {| dest := {| hostname := "test-shop.myshopify.com"; pathname := "/"; search := "";
                searchParams := [] |};
     sub := "42" |}.

Definition unauthorized : Response :=
  {| status := 401; statusText := "Unauthorized"; responseHeaders := []; body := None |}.

(** The exchange of the sample platform is told by the [code] parameter
    of the callback what to answer. *)
Definition exchange (request : Request) : Error + Session * list (string * string) :=
  match searchParams_get (url request) "code" with
  | Some "offline" => inr (offlineSession, [("Set-Cookie", "state=;")])
  | Some "online" => inr (onlineSession, [("Set-Cookie", "state=;")])
  | Some "bad-hmac" => inl InvalidHmacError
  | Some "bad-state" => inl InvalidOAuthError
  | Some "no-cookie" => inl CookieNotFound
  | _ => inl (OtherError "exchange failed")
  end.

Definition bearer (request : Request) : option string :=
  match headers_get request "authorization" with
  | Some v => if Str.startsWith "Bearer " v then Some (Str.drop 7 v) else Some v
  | None => None
  end.

Definition env (embedded : bool) : Env :=
  {| apiIsEmbeddedApp := embedded;
     sanitizeShop := ShopGrammar.sanitizeShop;
     sanitizeHost := fun h => if truthy (Some h) then Some h else None;
     getOfflineId := fun shop => "offline_" +:+ shop;
     getJwtSessionId := fun shop user => shop +:+ "_" +:+ user;
     getCurrentId := fun _ _ => None;
     isActive := active;
     authCallback := exchange;
     authorizeUrl := fun shop online =>
       "https://" +:+ default "null" shop +:+ "/admin/oauth/authorize?online="
       +:+ (if online then "1" else "0");
     embeddedAppUrl := fun _ => "https://admin.shopify.com/store/test-shop/apps/sample-key";
     testQuery := fun _ => None;
     getSessionTokenHeader := bearer;
     validateSessionToken := fun t =>
       if String.eqb t "valid-token" then inr payload else inl unauthorized;
     renderAppBridge := fun _ _ =>
       {| status := 200; statusText := ""; responseHeaders := []; body := Some "app-bridge" |};
     isBot := fun _ => false;
     botResponse := {| status := 410; statusText := "Gone"; responseHeaders := []; body := None |};
     preflightResponse :=
       {| status := 204; statusText := ""; responseHeaders := []; body := None |};
     corsHeaders := fun _ => [];
     encodeComponent := fun s => s |}.

Definition get (p : string) (query : list (string * string))
    (hs : list (string * string)) : Request :=
  {| method := "GET";
     url := {| hostname := "app.example"; pathname := p;
               search := AuthStrategy.serializedSearch (env true) query;
               searchParams := query |};
     headers := hs; formData := Some [] |}.

Definition emptyWorld : World := {| storage := ∅; calls := [] |}.

Definition installedWorld : World :=
  {| storage := {[ id offlineSession := offlineSession ]}; calls := [] |}.

(** The sample application with another afterAuth hook. *)
Definition withAfterAuth (hook : option AfterAuthHook) (base : AppConfig) : AppConfig :=
  {| isEmbeddedApp := isEmbeddedApp base; useOnlineTokens := useOnlineTokens base;
     scopes := scopes base; apiKey := apiKey base; appUrl := appUrl base;
     auth := auth base; afterAuth := hook |}.

(** The sample platform with another answer to the query of [testSession]. *)
Definition withTestQuery (answer : option Error) (base : Env) : Env :=
  {| apiIsEmbeddedApp := apiIsEmbeddedApp base;
     sanitizeShop := sanitizeShop base;
     sanitizeHost := sanitizeHost base;
     getOfflineId := getOfflineId base;
     getJwtSessionId := getJwtSessionId base;
     getCurrentId := getCurrentId base;
     isActive := isActive base;
     authCallback := authCallback base;
     authorizeUrl := authorizeUrl base;
     embeddedAppUrl := embeddedAppUrl base;
     testQuery := fun _ => answer;
     getSessionTokenHeader := getSessionTokenHeader base;
     validateSessionToken := validateSessionToken base;
     renderAppBridge := renderAppBridge base;
     isBot := isBot base;
     botResponse := botResponse base;
     preflightResponse := preflightResponse base;
     corsHeaders := corsHeaders base;
     encodeComponent := encodeComponent base |}.

(** A hook that fails with an error of its own. *)
Definition failingHook : AfterAuthHook :=
  fun _ st => (Some (ThrownError (OtherError "hook failed")), st).

End Sample.

(** ** Readings of the specification that the code does not follow

    Each is stated here as the specification words it, and refuted
    below. *)

Module Stated.

(** Section 8, property 6: a GET of the login path with [shop=test-shop],
    under a non-embedded configuration, is answered by a 302 to
    [/auth?shop=test-shop.myshopify.com] (on the application's own
    address or relative to it). *)
Definition login_redirects_to_auth : Prop :=
  forall (env : Env) (config : AppConfig) (request : Request),
    isEmbeddedApp config = false ->
    method request = "GET" ->
    pathname (url request) = loginPath (auth config) ->
    searchParams (url request) = [("shop", "test-shop")] ->
    formData request = Some [] ->
    sanitizeShop env "test-shop.myshopify.com" = Some "test-shop.myshopify.com" ->
    exists r target,
      Login.login env config request = Threw (ThrownResponse r)
      /\ status r = 302
      /\ location r = Some target
      /\ Str.endsWith "/auth?shop=test-shop.myshopify.com" target = true.

(** Section 8, property 7, for every request: under an embedded
    configuration, a request that passed the bot and preflight guard and
    carries a valid session token, for which an active session is
    stored, is given a context with that session. *)
Definition token_request_returns_session : Prop :=
  forall (env : Env) (config : AppConfig) (request : Request) (tok : string)
         (payload : JwtPayload) (s : Session) (w : World),
    isEmbeddedApp config = true ->
    isBot env request = false ->
    method request <> "OPTIONS" ->
    getSessionTokenHeader env request = Some tok ->
    tok <> "" ->
    validateSessionToken env tok = inr payload ->
    AuthStrategy.tokenSessionId env config payload <> "" ->
    storage w !! AuthStrategy.tokenSessionId env config payload = Some s ->
    isActive env s (scopes config) = true ->
    exists ctx w',
      AuthStrategy.authenticateAdmin env config request w = (Returned ctx, w')
      /\ AuthStrategy.contextSession ctx = s.

(** Section 4.6, step 4, for every configuration: a request that
    [handleRoutes] let through and that carries no session token header
    is sent to the login path when its shop or its host parameter is
    missing or invalid. *)
Definition invalid_params_redirect_to_login : Prop :=
  forall (env : Env) (config : AppConfig) (request : Request) (w w1 : World),
    AuthCodeFlowStrategy.handleRoutes env config request w = (Returned tt, w1) ->
    truthy (getSessionTokenHeader env request) = false ->
    truthy (onParam (sanitizeShop env) (searchParams_get (url request) "shop")) = false
    \/ truthy (onParam (sanitizeHost env) (searchParams_get (url request) "host")) = false ->
    exists r w',
      AuthStrategy.authenticateAndGetSessionContext env config request w
      = (Threw (ThrownResponse r), w')
      /\ status r = 302
      /\ location r = Some (loginPath (auth config)).

End Stated.

(** Unfolds the operations of [M] in the goal. *)
Ltac run :=
  unfold bind, ret, throwResponse, throwError, throw, tryCatch, record,
    loadSession, storeSession; simpl.

(** * Properties *)

(** ** Strings *)

Section StringFacts.

Lemma startsWith_split (p s : string) :
  Str.startsWith p s = true -> s = p +:+ Str.drop (String.length p) s.
Proof.
  revert s. induction p as [|a p IH]; intros s Hp; [reflexivity|].
  destruct s as [|b s]; simpl in Hp; [discriminate|].
  apply andb_prop in Hp as [Hab Hp].
  apply Ascii.eqb_eq in Hab. subst b.
  change (String a s = String a (p +:+ Str.drop (String.length p) s)).
  f_equal. now apply IH.
Qed.

Lemma includes_app (c : ascii) (p s : string) :
  Str.includes c (p +:+ s) = Str.includes c p || Str.includes c s.
Proof.
  induction p as [|a p IH]; [reflexivity|].
  change (Str.includes c (String a (p +:+ s))
          = Str.includes c (String a p) || Str.includes c s).
  simpl. rewrite IH. apply orb_assoc.
Qed.

Lemma stripProtocol_without_colon (s : string) :
  Str.includes ":" s = false -> Str.stripProtocol s = s.
Proof.
  intros Hs. unfold Str.stripProtocol.
  destruct (Str.startsWith "https://" s) eqn:E1.
  - apply startsWith_split in E1. rewrite E1, includes_app in Hs. discriminate Hs.
  - destruct (Str.startsWith "http://" s) eqn:E2; [|reflexivity].
    apply startsWith_split in E2. rewrite E2, includes_app in Hs. discriminate Hs.
Qed.

(** The protocol holds no dot: whether a shop holds one can be asked
    before or after the protocol is stripped. *)
Lemma includes_dot_stripProtocol (s : string) :
  Str.includes "." (Str.stripProtocol s) = Str.includes "." s.
Proof.
  unfold Str.stripProtocol.
  destruct (Str.startsWith "https://" s) eqn:E1.
  - apply startsWith_split in E1. rewrite E1 at 2. now rewrite includes_app.
  - destruct (Str.startsWith "http://" s) eqn:E2; [|reflexivity].
    apply startsWith_split in E2. rewrite E2 at 2. now rewrite includes_app.
Qed.

End StringFacts.

(** ** The domain grammar *)

Section GrammarFacts.

Import ShopGrammar.

Lemma isLabelChar_not_dot (c : ascii) : isLabelChar c = true -> Ascii.eqb c "." = false.
Proof.
  destruct c as [[] [] [] [] [] [] [] []]; vm_compute; congruence.
Qed.

Lemma isLabelChar_not_colon (c : ascii) : isLabelChar c = true -> Ascii.eqb c ":" = false.
Proof.
  destruct c as [[] [] [] [] [] [] [] []]; vm_compute; congruence.
Qed.

Lemma shopGrammar_dotted (s : string) :
  shopGrammar s = true -> Str.includes "." s = true.
Proof.
  induction s as [|c s IH]; simpl; [discriminate|].
  intros [_ H]%andb_prop.
  apply orb_prop in H as [H|H].
  - apply String.eqb_eq in H. subst s. apply orb_true_r.
  - rewrite (IH H). apply orb_true_r.
Qed.

Lemma shopGrammar_without_colon (s : string) :
  shopGrammar s = true -> Str.includes ":" s = false.
Proof.
  induction s as [|c s IH]; simpl; [discriminate|].
  intros [Hc H]%andb_prop.
  rewrite (isLabelChar_not_colon c Hc). simpl.
  apply orb_prop in H as [H|H].
  - apply String.eqb_eq in H. subst s. reflexivity.
  - now apply IH.
Qed.

Lemma sanitizeShop_check (x r : string) :
  sanitizeShop x = Some r -> r = x /\ shopGrammar r = true.
Proof.
  unfold sanitizeShop. destruct (shopGrammar x) eqn:E; [|discriminate].
  intros [= <-]. now split.
Qed.

#[export] Instance sanitizeShop_DomainCheck : DomainCheck sanitizeShop.
Proof.
  split; intros x r [-> Hr]%sanitizeShop_check.
  - unfold sanitizeShop. now rewrite Hr.
  - now apply shopGrammar_dotted.
  - now apply stripProtocol_without_colon, shopGrammar_without_colon.
Qed.

End GrammarFacts.

(** ** The login helper *)

Section LoginFacts.

Import Login.

Variable env : Env.
Variable config : AppConfig.

Lemma shopWithDomain_of_checked (r : string) :
  Str.includes "." r = true -> Str.stripProtocol r = r -> shopWithDomain r = r.
Proof.
  intros Hdot Hbare. unfold shopWithDomain. now rewrite Hdot, Hbare.
Qed.

Lemma loginWithShop_invalid (s : string) :
  normalizeShop env s = None ->
  loginWithShop env config s = Returned {| shopError := InvalidShop |}.
Proof.
  intros H. unfold loginWithShop. now rewrite H.
Qed.

Lemma loginWithShop_no_error (s : string) (e : Error) :
  loginWithShop env config s <> Threw (ThrownError e).
Proof.
  unfold loginWithShop.
  destruct (normalizeShop env s) as [r|]; simpl; [|discriminate].
  destruct (negb (negb (String.eqb r ""))); discriminate.
Qed.

(** [login] comes to [loginWithShop] for the shop of the request. *)
Lemma login_of_shop (request : Request) (form : list (string * string)) (s : string) :
  formData request = Some form ->
  requestedShop request form = Some s ->
  s <> "" ->
  login env config request = loginWithShop env config s.
Proof.
  intros Hform Hshop Hs. unfold login.
  rewrite Hform, Hshop.
  apply String.eqb_neq in Hs. now rewrite Hs.
Qed.

Lemma login_of_query (request : Request) (form : list (string * string)) (s : string) :
  formData request = Some form ->
  truthy (assoc "shop" form) = false ->
  searchParams_get (url request) "shop" = Some s ->
  s <> "" ->
  login env config request = loginWithShop env config s.
Proof.
  intros Hform Hnone Hquery Hs.
  apply (login_of_shop request form s Hform); [|exact Hs].
  unfold requestedShop. now rewrite Hnone.
Qed.

End LoginFacts.

(** C9.  Normalising a shop twice gives what normalising it once gives:
    a name the sanitizer returned is left alone by the stripping of the
    protocol and by the completion of the domain, and is returned again.
    A shop whose completed name fails the check makes [login] return the
    [InvalidShop] result; no error is ever thrown for a shop.  The
    sanitizer is any check in the sense of [DomainCheck]; the grammar of
    section 4.1 is one. *)
Theorem normalizeShop_idempotent (env : Env) (config : AppConfig)
    (Hcheck : DomainCheck (sanitizeShop env)) (s : string) :
  Login.normalizeTwice env s = Login.normalizeShop env s
  /\ (Login.normalizeShop env s = None ->
      Login.loginWithShop env config s
      = Returned {| Login.shopError := Login.InvalidShop |})
  /\ (forall (request : Request) (form : list (string * string)),
        formData request = Some form ->
        Login.requestedShop request form = Some s ->
        s <> "" ->
        Login.normalizeShop env s = None ->
        Login.login env config request
        = Returned {| Login.shopError := Login.InvalidShop |})
  /\ (forall e, Login.loginWithShop env config s <> Threw (ThrownError e)).
Proof.
  split; [|split; [|split]].
  - unfold Login.normalizeTwice.
    destruct (Login.normalizeShop env s) as [r|] eqn:E; [|reflexivity].
    unfold Login.normalizeShop in *.
    rewrite shopWithDomain_of_checked.
    + eapply check_fixed, E.
    + eapply check_dotted, E.
    + eapply check_bare, E.
  - apply loginWithShop_invalid.
  - intros request form Hform Hshop Hs Hnone.
    rewrite (login_of_shop env config request form s Hform Hshop Hs).
    now apply loginWithShop_invalid.
  - apply loginWithShop_no_error.
Qed.

Lemma normalizeShop_idempotent_witness :
  Login.normalizeTwice (Sample.env false) "https://test-shop" = Some "test-shop.myshopify.com"
  /\ Login.loginWithShop (Sample.env false) (Sample.config false false) "invalid.shop"
     = Returned {| Login.shopError := Login.InvalidShop |}.
Proof.
  pose proof (normalizeShop_idempotent (Sample.env false) (Sample.config false false)
                sanitizeShop_DomainCheck) as H.
  split.
  - destruct (H "https://test-shop") as [-> _]. reflexivity.
  - destruct (H "invalid.shop") as (_ & Hinvalid & _). apply Hinvalid. reflexivity.
Defined.

(** Where the form of a login request can be read and names no shop, and
    the query says [shop=test-shop], the answer is a 302 whose Location is
    the application's page in the admin of the shop,
    [https://admin.shopify.com/store/test-shop/apps/<apiKey>], whatever
    the embedding mode. *)
Lemma login_redirects_to_admin (env : Env) (config : AppConfig) (request : Request)
    (form : list (string * string)) :
  formData request = Some form ->
  truthy (assoc "shop" form) = false ->
  searchParams_get (url request) "shop" = Some "test-shop" ->
  sanitizeShop env "test-shop.myshopify.com" = Some "test-shop.myshopify.com" ->
  exists r,
    Login.login env config request = Threw (ThrownResponse r)
    /\ status r = 302
    /\ location r = Some ("https://admin.shopify.com/store/test-shop/apps/" +:+ apiKey config).
Proof.
  intros Hform Hnone Hquery Hvalid.
  rewrite (login_of_query env config request form "test-shop" Hform Hnone Hquery);
    [|discriminate].
  unfold Login.loginWithShop, Login.normalizeShop.
  change (Login.shopWithDomain "test-shop") with "test-shop.myshopify.com".
  rewrite Hvalid. eexists. split; [reflexivity|]. split; reflexivity.
Qed.

Lemma login_redirects_to_admin_witness :
  exists r,
    Login.login (Sample.env false) (Sample.config false false)
      (Sample.get "/auth/login" [("shop", "test-shop")] []) = Threw (ThrownResponse r)
    /\ status r = 302
    /\ location r = Some "https://admin.shopify.com/store/test-shop/apps/sample-key".
Proof.
  apply (login_redirects_to_admin (Sample.env false) (Sample.config false false)
           (Sample.get "/auth/login" [("shop", "test-shop")] []) []); reflexivity.
Defined.

(** Section 8, property 6 does not hold of this [login], even where the
    form can be read: the sample application is sent to the admin of the
    shop, not to [/auth]. *)
Lemma login_redirects_to_auth_refuted : ~ Stated.login_redirects_to_auth.
Proof.
  intros H.
  destruct (H (Sample.env false) (Sample.config false false)
              (Sample.get "/auth/login" [("shop", "test-shop")] []))
    as (r & target & Hrun & _ & Hloc & Hends); try reflexivity.
  vm_compute in Hrun. injection Hrun as <-.
  vm_compute in Hloc. injection Hloc as <-.
  vm_compute in Hends. discriminate Hends.
Qed.

(** C8.  The code does not do what the claim and login.test.ts say.
    [login] awaits [request.formData()] for every method, before it looks
    at the shop: on the plain GET of the claim, whose form data cannot be
    read, it throws an error and no response; and on the same request with
    a form that can be read, the 302 goes to the admin of the shop,
    [https://admin.shopify.com/store/test-shop/apps/<apiKey>], not to
    [/auth?shop=test-shop.myshopify.com]. *)
Theorem login_get_request_diverges :
  Login.login (Sample.env false) (Sample.config false false)
    {| method := "GET";
       url := {| hostname := "app.example"; pathname := "/auth/login";
                 search := "?shop=test-shop"; searchParams := [("shop", "test-shop")] |};
       headers := [("content-length", "0")]; formData := None |}
  = Threw (ThrownError (OtherError "formData"))
  /\ Login.login (Sample.env false) (Sample.config false false)
       {| method := "GET";
          url := {| hostname := "app.example"; pathname := "/auth/login";
                    search := "?shop=test-shop"; searchParams := [("shop", "test-shop")] |};
          headers := [("content-length", "0")]; formData := Some [] |}
     = Threw (ThrownResponse
                (redirect "https://admin.shopify.com/store/test-shop/apps/sample-key"))
  /\ Str.endsWith "/auth?shop=test-shop.myshopify.com"
       "https://admin.shopify.com/store/test-shop/apps/sample-key" = false.
Proof.
  split; [reflexivity|]. split; reflexivity.
Qed.

Section HelperFacts.

Import Helpers.

Variable env : Env.
Variable config : AppConfig.

Lemma beginAuth_run {A} (request : Request) (online : bool) (sh : option string) (w : World) :
  beginAuth (A:=A) env request online sh w
  = (Threw (ThrownResponse (redirect (authorizeUrl env sh online))),
     {| storage := storage w; calls := calls w ++ [BeginAuth sh online] |}).
Proof. reflexivity. Qed.

Lemma redirectWithExitIframe_run {A} (request : Request) (sh : option string) (w : World) :
  redirectWithExitIframe (A:=A) env config request sh w
  = (Threw (ThrownResponse
              (redirect (exitIframePath (auth config) +:+ "?exitIframe="
                         +:+ encodeComponent env (authorizeUrl env sh false)))),
     {| storage := storage w; calls := calls w ++ [ExitIframe sh] |}).
Proof. reflexivity. Qed.

Lemma redirectToAuthPage_responds {A} (request : Request) (sh : option string) (w : World) :
  exists r w',
    redirectToAuthPage (A:=A) env config request sh w = (Threw (ThrownResponse r), w')
    /\ storage w' = storage w.
Proof.
  unfold redirectToAuthPage.
  destruct (isEmbeddedApp config && _); do 2 eexists; split; reflexivity.
Qed.

Lemma redirectToShopifyOrAppRoot_run {A} (request : Request)
    (hs : list (string * string)) (w : World) :
  exists r,
    redirectToShopifyOrAppRoot (A:=A) env config request hs w
    = (Threw (ThrownResponse r),
       {| storage := storage w; calls := calls w ++ [ShopifyOrAppRoot] |}).
Proof. eexists. reflexivity. Qed.

(** The hook touches the storage only; what it throws is thrown on. *)
Lemma triggerAfterAuthHook_run (s : Session) (request : Request) (w : World) :
  exists st,
    snd (triggerAfterAuthHook config s request w)
    = {| storage := st;
         calls := calls w ++ match afterAuth config with
                             | Some _ => [AfterAuth s]
                             | None => []
                             end |}.
Proof.
  unfold triggerAfterAuthHook.
  destruct (afterAuth config) as [hook|]; run.
  - destruct (hook s (storage w)) as [thrown st]. now exists st.
  - exists (storage w). rewrite app_nil_r. now destruct w.
Qed.

End HelperFacts.

(** ** The OAuth routes *)

Section StrategyFacts.

Import Helpers AuthCodeFlowStrategy.

Variable env : Env.
Variable config : AppConfig.

Lemma handleAuthBeginRequest_run {A} (request : Request) (shop : string) (w : World) :
  handleAuthBeginRequest (A:=A) env config request shop w
  = (Threw (ThrownResponse (beginResponse env config request shop)),
     {| storage := storage w; calls := calls w ++ [beginCall config request shop] |}).
Proof.
  unfold handleAuthBeginRequest, beginResponse, beginCall.
  now destruct (isEmbeddedApp config && _).
Qed.

Lemma beginResponse_status (request : Request) (shop : string) :
  status (beginResponse env config request shop) = 302.
Proof. unfold beginResponse. now destruct (isEmbeddedApp config && _). Qed.

Lemma oauthCallbackError_run (e : Error) (request : Request) (shop : string) (w : World) :
  match classify e with
  | RestartBegin =>
      oauthCallbackError env config e request shop w
      = handleAuthBeginRequest env config request shop w
  | BadRequest =>
      exists r, oauthCallbackError env config e request shop w = (Returned r, w)
                /\ status r = 400
  | ServerError =>
      exists r, oauthCallbackError env config e request shop w = (Returned r, w)
                /\ status r = 500
  end.
Proof.
  destruct e; simpl; try reflexivity; eexists; split; reflexivity.
Qed.

(** A failed exchange is what the [try] block throws, before anything is
    stored. *)
Lemma callbackAttempt_failed {A} (request : Request) (shop : string) (e : Error) (w : World) :
  authCallback env request = inl e ->
  callbackAttempt (A:=A) env config request shop w = (Threw (ThrownError e), w).
Proof.
  intros H. unfold callbackAttempt. now rewrite H.
Qed.

(** An error of the [try] block is handed to [oauthCallbackError], and what
    that returns is thrown. *)
Lemma handleAuthCallbackRequest_caught {A} (request : Request) (shop : string)
    (e : Error) (w w1 : World) :
  callbackAttempt (A:=A) env config request shop w = (Threw (ThrownError e), w1) ->
  handleAuthCallbackRequest (A:=A) env config request shop w
  = match oauthCallbackError env config e request shop w1 with
    | (Returned r, w') => (Threw (ThrownResponse r), w')
    | (Threw t, w') => (Threw t, w')
    end.
Proof.
  intros H. unfold handleAuthCallbackRequest, tryCatch. rewrite H. reflexivity.
Qed.

(** The [try] block never returns. *)
Lemma callbackAttempt_throws {A} (request : Request) (shop : string) (w : World) :
  exists t w1, callbackAttempt (A:=A) env config request shop w = (Threw t, w1).
Proof.
  unfold callbackAttempt, triggerAfterAuthHook.
  destruct (authCallback env request) as [e|[s hs]]; run; [eauto|].
  destruct (useOnlineTokens config && negb (isOnline s)); simpl; [eauto|].
  destruct (afterAuth config) as [hook|]; run; [|eauto].
  match goal with
  | |- context [hook ?a ?b] => destruct (hook a b) as [[t|] st]
  end; simpl; eauto.
Qed.

(** Whatever the exchange and the hook do, the callback ends with a
    response: no error leaves it. *)
Lemma handleAuthCallbackRequest_responds {A} (request : Request) (shop : string)
    (w : World) :
  exists r w',
    handleAuthCallbackRequest (A:=A) env config request shop w
    = (Threw (ThrownResponse r), w').
Proof.
  destruct (callbackAttempt_throws (A:=A) request shop w) as ([r|e] & w1 & Hattempt).
  - unfold handleAuthCallbackRequest, tryCatch. rewrite Hattempt. simpl. eauto.
  - rewrite (handleAuthCallbackRequest_caught request shop e w w1 Hattempt).
    pose proof (oauthCallbackError_run e request shop w1) as Hc.
    destruct (classify e).
    + rewrite Hc, handleAuthBeginRequest_run. eauto.
    + destruct Hc as (r & -> & _). eauto.
    + destruct Hc as (r & -> & _). eauto.
Qed.

End StrategyFacts.

(** C2.  When the exchange of the callback fails on the HMAC or on the
    OAuth state, the callback handler ends with a response of status 400
    and leaves the world as it found it: no session is stored, no call is
    made. *)
Theorem invalid_callback_is_rejected (env : Env) (config : AppConfig) (A : Type)
    (request : Request) (shop : string) (e : Error) (w : World) :
  authCallback env request = inl e ->
  e = InvalidHmacError \/ e = InvalidOAuthError ->
  exists r,
    AuthCodeFlowStrategy.handleAuthCallbackRequest (A:=A) env config request shop w
    = (Threw (ThrownResponse r), w)
    /\ status r = 400.
Proof.
  intros Hfail He.
  rewrite (handleAuthCallbackRequest_caught env config request shop e w w
             (callbackAttempt_failed env config request shop e w Hfail)).
  destruct He as [-> | ->]; eexists; (split; [reflexivity|reflexivity]).
Qed.

Lemma invalid_callback_is_rejected_witness :
  exists r,
    AuthCodeFlowStrategy.handleAuthCallbackRequest (A:=unit) (Sample.env true)
      (Sample.config true false)
      (Sample.get "/auth/callback" [("shop", "test-shop.myshopify.com"); ("code", "bad-hmac")] [])
      "test-shop.myshopify.com" Sample.emptyWorld
    = (Threw (ThrownResponse r), Sample.emptyWorld)
    /\ status r = 400.
Proof.
  apply (invalid_callback_is_rejected (Sample.env true) (Sample.config true false) unit
           (Sample.get "/auth/callback"
              [("shop", "test-shop.myshopify.com"); ("code", "bad-hmac")] [])
           "test-shop.myshopify.com" InvalidHmacError Sample.emptyWorld).
  - reflexivity.
  - left. reflexivity.
Defined.

(** C3.  Under a configuration that uses online tokens, a callback whose
    exchange gives an offline session stores that session and ends with
    the redirect of a second OAuth begin, asked for an online token.  That
    begin is the only call made: the afterAuth hook is not run. *)
Theorem offline_exchange_begins_online_oauth (env : Env) (config : AppConfig) (A : Type)
    (request : Request) (shop : string) (s : Session) (hs : list (string * string))
    (w : World) :
  useOnlineTokens config = true ->
  authCallback env request = inr (s, hs) ->
  isOnline s = false ->
  AuthCodeFlowStrategy.handleAuthCallbackRequest (A:=A) env config request shop w
  = (Threw (ThrownResponse (redirect (authorizeUrl env (Some shop) true))),
     {| storage := <[id s := s]> (storage w);
        calls := calls w ++ [BeginAuth (Some shop) true] |}).
Proof.
  intros Honline Hexchange Hoffline.
  unfold AuthCodeFlowStrategy.handleAuthCallbackRequest,
    AuthCodeFlowStrategy.callbackAttempt.
  rewrite Hexchange, Honline, Hoffline. reflexivity.
Qed.

Lemma offline_exchange_begins_online_oauth_witness :
  AuthCodeFlowStrategy.handleAuthCallbackRequest (A:=unit) (Sample.env true)
    (Sample.config true true)
    (Sample.get "/auth/callback" [("shop", "test-shop.myshopify.com"); ("code", "offline")] [])
    "test-shop.myshopify.com" Sample.emptyWorld
  = (Threw (ThrownResponse
              (redirect "https://test-shop.myshopify.com/admin/oauth/authorize?online=1")),
     {| storage := <[id Sample.offlineSession := Sample.offlineSession]> ∅;
        calls := [BeginAuth (Some "test-shop.myshopify.com") true] |}).
Proof.
  apply (offline_exchange_begins_online_oauth (Sample.env true) (Sample.config true true) unit
           (Sample.get "/auth/callback"
              [("shop", "test-shop.myshopify.com"); ("code", "offline")] [])
           "test-shop.myshopify.com" Sample.offlineSession [("Set-Cookie", "state=;")]
           Sample.emptyWorld); reflexivity.
Defined.

(** C4.  Under an embedded configuration, a begin request that comes from
    an iframe ends in [redirectWithExitIframe]: the handler of the begin
    request does what that responder does, and its only call is the exit
    of the iframe.  On the begin path, whatever the shop parameter is, no
    redirect to the authorize URL is issued. *)
Theorem iframe_begin_exits_iframe (env : Env) (config : AppConfig) (request : Request) :
  isEmbeddedApp config = true ->
  headers_get request "Sec-Fetch-Dest" = Some "iframe" ->
  (forall (A : Type) (shop : string) (w : World),
     AuthCodeFlowStrategy.handleAuthBeginRequest (A:=A) env config request shop w
     = Helpers.redirectWithExitIframe env config request (Some shop) w
     /\ calls (snd (AuthCodeFlowStrategy.handleAuthBeginRequest (A:=A) env config request shop w))
        = (calls w ++ [ExitIframe (Some shop)])%list)
  /\ (forall (w : World) (sh : option string) (online : bool),
        pathname (url request) = path (auth config) ->
        BeginAuth sh online
          ∈ calls (snd (AuthCodeFlowStrategy.handleOAuthRoutes env config request w)) ->
        BeginAuth sh online ∈ calls w).
Proof.
  intros Hembedded Hiframe.
  assert (Hbegin : forall (A : Type) (shop : string) (w : World),
             AuthCodeFlowStrategy.handleAuthBeginRequest (A:=A) env config request shop w
             = Helpers.redirectWithExitIframe env config request (Some shop) w).
  { intros A shop w. unfold AuthCodeFlowStrategy.handleAuthBeginRequest.
    now rewrite Hembedded, Hiframe. }
  split.
  - intros A shop w. split; [apply Hbegin|]. now rewrite Hbegin.
  - intros w sh online Hpath.
    unfold AuthCodeFlowStrategy.handleOAuthRoutes.
    rewrite Hpath, String.eqb_refl. simpl.
    destruct (onParam _ _) as [s|]; [|trivial].
    destruct (String.eqb s ""); [trivial|].
    rewrite Hbegin, redirectWithExitIframe_run. simpl.
    rewrite elem_of_app, list_elem_of_singleton. intros [H|H]; [exact H|discriminate H].
Qed.

Lemma iframe_begin_exits_iframe_witness :
  calls (snd (AuthCodeFlowStrategy.handleAuthBeginRequest (A:=unit) (Sample.env true)
                (Sample.config true false)
                (Sample.get "/auth" [("shop", "test-shop.myshopify.com")]
                   [("sec-fetch-dest", "iframe")])
                "test-shop.myshopify.com" Sample.emptyWorld))
  = [ExitIframe (Some "test-shop.myshopify.com")].
Proof.
  apply (proj1 (iframe_begin_exits_iframe (Sample.env true) (Sample.config true false)
                  (Sample.get "/auth" [("shop", "test-shop.myshopify.com")]
                     [("sec-fetch-dest", "iframe")])
                  eq_refl eq_refl) unit "test-shop.myshopify.com" Sample.emptyWorld).
Defined.

(** C5.  When the processing of a callback raises [CookieNotFound], the
    callback handler ends as the handler of a begin request does for the
    same shop: with a 302, through the exit of the iframe under an
    embedded configuration in an iframe, to the authorize URL otherwise.
    When it is the exchange that raises it, nothing has been stored. *)
Theorem missing_state_cookie_restarts_oauth (env : Env) (config : AppConfig) (A : Type)
    (request : Request) (shop : string) (w w1 : World) :
  AuthCodeFlowStrategy.callbackAttempt (A:=A) env config request shop w
  = (Threw (ThrownError CookieNotFound), w1) ->
  (authCallback env request = inl CookieNotFound -> w1 = w)
  /\ exists r w',
       AuthCodeFlowStrategy.handleAuthCallbackRequest (A:=A) env config request shop w
       = (Threw (ThrownResponse r), w')
       /\ AuthCodeFlowStrategy.handleAuthBeginRequest (A:=A) env config request shop w1
          = (Threw (ThrownResponse r), w')
       /\ status r = 302
       /\ storage w' = storage w1
       /\ calls w' = (calls w1 ++ [AuthCodeFlowStrategy.beginCall config request shop])%list
       /\ (AuthCodeFlowStrategy.beginCall config request shop = ExitIframe (Some shop)
           \/ AuthCodeFlowStrategy.beginCall config request shop = BeginAuth (Some shop) false).
Proof.
  intros Hattempt. split.
  - intros Hfail.
    rewrite (callbackAttempt_failed env config request shop _ w Hfail) in Hattempt.
    now injection Hattempt.
  - rewrite (handleAuthCallbackRequest_caught env config request shop _ w w1 Hattempt).
    simpl. rewrite !handleAuthBeginRequest_run.
    do 2 eexists. split; [reflexivity|]. split; [reflexivity|].
    split; [apply beginResponse_status|]. split; [reflexivity|]. split; [reflexivity|].
    unfold AuthCodeFlowStrategy.beginCall. destruct (isEmbeddedApp config && _); auto.
Qed.

Lemma missing_state_cookie_restarts_oauth_witness :
  exists r w',
    AuthCodeFlowStrategy.handleAuthCallbackRequest (A:=unit) (Sample.env true)
      (Sample.config true false)
      (Sample.get "/auth/callback" [("shop", "test-shop.myshopify.com"); ("code", "no-cookie")] [])
      "test-shop.myshopify.com" Sample.emptyWorld
    = (Threw (ThrownResponse r), w')
    /\ status r = 302
    /\ calls w' = [BeginAuth (Some "test-shop.myshopify.com") false].
Proof.
  destruct (missing_state_cookie_restarts_oauth (Sample.env true) (Sample.config true false)
              unit
              (Sample.get "/auth/callback"
                 [("shop", "test-shop.myshopify.com"); ("code", "no-cookie")] [])
              "test-shop.myshopify.com" Sample.emptyWorld Sample.emptyWorld eq_refl)
    as (_ & r & w' & Hrun & _ & Hstatus & _ & Hcalls & _).
  exists r, w'. split; [exact Hrun|]. split; [exact Hstatus|exact Hcalls].
Defined.

(** C6.  An error raised while a callback is processed falls in exactly one
    of three classes, and each class has its outcome: a missing state
    cookie restarts the begin request, a bad HMAC or OAuth state is
    answered 400, anything else 500.  Whatever the exchange and the hook
    do, the handler ends with a response, never with an error. *)
Theorem callback_errors_are_classified (env : Env) (config : AppConfig) (A : Type)
    (request : Request) (shop : string) (w : World) :
  (forall (e : Error) (w1 : World),
     AuthCodeFlowStrategy.callbackAttempt (A:=A) env config request shop w
     = (Threw (ThrownError e), w1) ->
     match AuthCodeFlowStrategy.classify e with
     | AuthCodeFlowStrategy.RestartBegin =>
         e = CookieNotFound
         /\ AuthCodeFlowStrategy.handleAuthCallbackRequest (A:=A) env config request shop w
            = AuthCodeFlowStrategy.handleAuthBeginRequest (A:=A) env config request shop w1
     | AuthCodeFlowStrategy.BadRequest =>
         (e = InvalidHmacError \/ e = InvalidOAuthError)
         /\ exists r,
              AuthCodeFlowStrategy.handleAuthCallbackRequest (A:=A) env config request shop w
              = (Threw (ThrownResponse r), w1)
              /\ status r = 400
     | AuthCodeFlowStrategy.ServerError =>
         e <> CookieNotFound /\ e <> InvalidHmacError /\ e <> InvalidOAuthError
         /\ exists r,
              AuthCodeFlowStrategy.handleAuthCallbackRequest (A:=A) env config request shop w
              = (Threw (ThrownResponse r), w1)
              /\ status r = 500
     end)
  /\ exists r w',
       AuthCodeFlowStrategy.handleAuthCallbackRequest (A:=A) env config request shop w
       = (Threw (ThrownResponse r), w').
Proof.
  split; [|apply handleAuthCallbackRequest_responds].
  intros e w1 Hattempt.
  rewrite (handleAuthCallbackRequest_caught env config request shop e w w1 Hattempt).
  destruct e; simpl;
    try (split; [reflexivity|]; now rewrite !handleAuthBeginRequest_run);
    try (split; [auto|]; eexists; split; reflexivity);
    (repeat (split; [discriminate|]); eexists; split; reflexivity).
Qed.

Lemma callback_errors_are_classified_witness :
  exists r,
    AuthCodeFlowStrategy.handleAuthCallbackRequest (A:=unit) (Sample.env true)
      (Sample.config true false)
      (Sample.get "/auth/callback" [("shop", "test-shop.myshopify.com"); ("code", "?")] [])
      "test-shop.myshopify.com" Sample.emptyWorld
    = (Threw (ThrownResponse r), Sample.emptyWorld)
    /\ status r = 500.
Proof.
  apply (proj1 (callback_errors_are_classified (Sample.env true) (Sample.config true false)
                  unit
                  (Sample.get "/auth/callback"
                     [("shop", "test-shop.myshopify.com"); ("code", "?")] [])
                  "test-shop.myshopify.com" Sample.emptyWorld)
           (OtherError "exchange failed") Sample.emptyWorld eq_refl).
Defined.

(** ** The decision engine *)

Section EngineFacts.

Import Helpers AuthCodeFlowStrategy AuthStrategy.

Variable env : Env.
Variable config : AppConfig.

(** A request on none of the four route paths goes through
    [handleRoutes] untouched. *)
Lemma handleRoutes_pass (request : Request) (w : World) :
  isRoute config request = false ->
  handleRoutes env config request w = (Returned tt, w).
Proof.
  unfold isRoute. intros H.
  apply orb_false_elim in H as [H Hcallback].
  apply orb_false_elim in H as [H Hpath].
  apply orb_false_elim in H as [Hbounce Hexit].
  unfold handleRoutes, handleBouncePageRoute, handleExitIframeRoute, handleOAuthRoutes.
  run. now rewrite Hbounce, Hexit, Hpath, Hcallback.
Qed.

(** [handleRoutes] returns only for those requests, and changes nothing
    then. *)
Lemma handleRoutes_returned (request : Request) (w w1 : World) :
  handleRoutes env config request w = (Returned tt, w1) -> w1 = w.
Proof.
  unfold handleRoutes, handleBouncePageRoute, handleExitIframeRoute, handleOAuthRoutes.
  run.
  destruct (String.eqb _ (patchSessionTokenPath _)); simpl; [discriminate|].
  destruct (String.eqb _ (exitIframePath _)); simpl; [discriminate|].
  destruct (String.eqb _ (path _)) eqn:Hpath; simpl.
  - destruct (onParam _ _) as [s|]; [|discriminate].
    destruct (String.eqb s ""); [discriminate|].
    rewrite handleAuthBeginRequest_run. discriminate.
  - destruct (String.eqb _ (callbackPath _)); simpl; [|congruence].
    destruct (onParam _ _) as [s|]; [|discriminate].
    destruct (String.eqb s ""); [discriminate|].
    destruct (handleAuthCallbackRequest_responds env config (A:=unit) request s w)
      as (r & w' & ->).
    discriminate.
Qed.

Lemma orElse_truthy (a b : option string) :
  truthy (orElse a b) = truthy a || truthy b.
Proof. unfold orElse. now destruct (truthy a) eqn:E. Qed.

(** A session token in the header is the one [getAuthenticatedSession]
    reads, under an embedded configuration. *)
Lemma sessionSource_header (request : Request) (tok : string) :
  isEmbeddedApp config = true ->
  getSessionTokenHeader env request = Some tok ->
  tok <> "" ->
  sessionSource env config request = FromSessionToken tok.
Proof.
  intros Hembedded Hheader Htok. unfold sessionSource, orElse.
  rewrite Hembedded, Hheader. simpl.
  apply String.eqb_neq in Htok. rewrite Htok. simpl. rewrite Htok. reflexivity.
Qed.

Lemma getAuthenticatedSession_stored (request : Request) (tok : string)
    (payload : JwtPayload) (s : Session) (w : World) :
  sessionSource env config request = FromSessionToken tok ->
  validateSessionToken env tok = inr payload ->
  tokenSessionId env config payload <> "" ->
  storage w !! tokenSessionId env config payload = Some s ->
  getAuthenticatedSession env config request w
  = (Returned {| sessionContext := Some {| session := s; token := Some payload |};
                 shopOf := Some (getShopFromSessionToken payload) |}, w).
Proof.
  intros Hsource Hvalid Hid Hstored. unfold getAuthenticatedSession.
  rewrite Hsource, Hvalid. run.
  apply String.eqb_neq in Hid. rewrite Hid. simpl. now rewrite Hstored.
Qed.

(** [getAuthenticatedSession] throws an error in its last branch only. *)
Lemma getAuthenticatedSession_error (request : Request) (w : World) (e : Error) :
  fst (getAuthenticatedSession env config request w) = Threw (ThrownError e) ->
  e = ShopifyError /\ sessionSource env config request = NoSource.
Proof.
  unfold getAuthenticatedSession.
  destruct (sessionSource env config request) as [tok| |]; run.
  - destruct (validateSessionToken env tok) as [r|payload]; simpl; [discriminate|].
    destruct (negb (negb (String.eqb _ ""))); simpl; discriminate.
  - destruct (negb (truthy _)); simpl; discriminate.
  - intros [= <-]. now split.
Qed.

Lemma ensureSessionExists_error (request : Request) (w : World) (e : Error) :
  fst (ensureSessionExists env config request w) = Threw (ThrownError e) ->
  e = ShopifyError /\ sessionSource env config request = NoSource.
Proof.
  unfold ensureSessionExists. unfold bind at 1.
  destruct (getAuthenticatedSession env config request w) as [[found|t] w'] eqn:E.
  - destruct (redirectToAuthPage_responds env config (A:=SessionContext) request
                (shopOf found) w') as (r & w'' & Hredirect & _).
    destruct (sessionContext found) as [ctx|]; [|rewrite Hredirect; discriminate].
    destruct (negb (isActive env (session ctx) (scopes config)));
      [rewrite Hredirect|]; discriminate.
  - simpl. intros [= ->].
    apply (getAuthenticatedSession_error request w). now rewrite E.
Qed.

End EngineFacts.

(** C1, as the code has it.  Under an embedded configuration, a request
    that passed the bot and preflight guard, whose path is none of the four
    paths [handleRoutes] answers, and whose header carries a valid session
    token, for which an active session is stored, is given the embedded
    context made of that session and of the token.  The world is left as it
    was: no redirect helper is called, nothing is stored. *)
Theorem token_request_returns_stored_session (env : Env) (config : AppConfig)
    (request : Request) (tok : string) (payload : JwtPayload) (s : Session) (w : World) :
  isEmbeddedApp config = true ->
  isBot env request = false ->
  method request <> "OPTIONS" ->
  AuthCodeFlowStrategy.isRoute config request = false ->
  getSessionTokenHeader env request = Some tok ->
  tok <> "" ->
  validateSessionToken env tok = inr payload ->
  AuthStrategy.tokenSessionId env config payload <> "" ->
  storage w !! AuthStrategy.tokenSessionId env config payload = Some s ->
  isActive env s (scopes config) = true ->
  AuthStrategy.authenticateAdmin env config request w
  = (Returned (AuthStrategy.EmbeddedAdminContext s (Some payload)), w).
Proof.
  intros Hembedded Hbot Hmethod Hroute Hheader Htok Hvalid Hid Hstored Hactive.
  pose proof (sessionSource_header env config request tok Hembedded Hheader Htok) as Hsource.
  unfold AuthStrategy.authenticateAdmin, Helpers.rejectBotRequest,
    Helpers.respondToOptionsRequest, AuthStrategy.authenticateAndGetSessionContext.
  apply String.eqb_neq in Hmethod. rewrite Hbot, Hmethod. run.
  rewrite (handleRoutes_pass env config request w Hroute), Hheader.
  apply String.eqb_neq in Htok. simpl. rewrite Htok. simpl.
  rewrite (getAuthenticatedSession_stored env config request tok payload s w
             Hsource Hvalid Hid Hstored).
  unfold AuthCodeFlowStrategy.manageAccessToken. simpl.
  rewrite Hactive. simpl. now rewrite Hembedded.
Qed.

Lemma token_request_returns_stored_session_witness :
  AuthStrategy.authenticateAdmin (Sample.env true) (Sample.config true false)
    (Sample.get "/app" [] [("authorization", "Bearer valid-token")]) Sample.installedWorld
  = (Returned (AuthStrategy.EmbeddedAdminContext Sample.offlineSession (Some Sample.payload)),
     Sample.installedWorld).
Proof.
  apply (token_request_returns_stored_session (Sample.env true) (Sample.config true false)
           (Sample.get "/app" [] [("authorization", "Bearer valid-token")])
           "valid-token" Sample.payload Sample.offlineSession Sample.installedWorld);
    try reflexivity; discriminate.
Defined.

(** C1, for every request, fails: on the begin path the same token and the
    same stored session are answered by the redirect of an OAuth begin. *)
Lemma token_request_returns_session_refuted : ~ Stated.token_request_returns_session.
Proof.
  intros H.
  destruct (H (Sample.env true) (Sample.config true false)
              (Sample.get "/auth" [("shop", "test-shop.myshopify.com")]
                 [("authorization", "Bearer valid-token")])
              "valid-token" Sample.payload Sample.offlineSession Sample.installedWorld
              eq_refl eq_refl ltac:(discriminate) eq_refl ltac:(discriminate) eq_refl
              ltac:(discriminate) eq_refl eq_refl)
    as (ctx & w' & Hrun & _).
  vm_compute in Hrun. discriminate Hrun.
Qed.

(** C7, as the code has it.  Under an embedded configuration, a request
    that [handleRoutes] let through and that carries no session token
    header is answered by a redirect to the login path when its shop or
    its host parameter is missing or refused by the sanitizer.  Nothing
    else happens: no OAuth begin, no error. *)
Theorem invalid_params_redirect_embedded_to_login (env : Env) (config : AppConfig)
    (request : Request) (w w1 : World) :
  isEmbeddedApp config = true ->
  AuthCodeFlowStrategy.handleRoutes env config request w = (Returned tt, w1) ->
  truthy (getSessionTokenHeader env request) = false ->
  missingOrInvalid (sanitizeShop env) (searchParams_get (url request) "shop") = true
  \/ missingOrInvalid (sanitizeHost env) (searchParams_get (url request) "host") = true ->
  AuthStrategy.authenticateAndGetSessionContext env config request w
  = (Threw (ThrownResponse (redirect (loginPath (auth config)))), w)
  /\ w1 = w.
Proof.
  intros Hembedded Hroutes Hheader Hparams.
  pose proof (handleRoutes_returned env config request w w1 Hroutes) as ->.
  split; [|reflexivity].
  unfold AuthStrategy.authenticateAndGetSessionContext. unfold bind at 1.
  rewrite Hroutes, Hheader.
  unfold AuthStrategy.validateUrlParams. rewrite Hembedded. unfold bind at 1.
  unfold missingOrInvalid in Hparams.
  destruct (truthy (onParam (sanitizeShop env) _)) eqn:Hshop; simpl; [|reflexivity].
  destruct Hparams as [Hparams|Hhost]; [discriminate Hparams|].
  apply negb_true_iff in Hhost. now rewrite Hhost.
Qed.

Lemma invalid_params_redirect_embedded_to_login_witness :
  AuthStrategy.authenticateAndGetSessionContext (Sample.env true) (Sample.config true false)
    (Sample.get "/app" [("shop", "not a shop")] []) Sample.emptyWorld
  = (Threw (ThrownResponse (redirect "/auth/login")), Sample.emptyWorld).
Proof.
  apply (invalid_params_redirect_embedded_to_login (Sample.env true) (Sample.config true false)
           (Sample.get "/app" [("shop", "not a shop")] []) Sample.emptyWorld Sample.emptyWorld);
    try reflexivity.
  left. reflexivity.
Defined.

(** C7, for every configuration, fails: without the embedded mode the
    parameters are not validated, and the sample request without a shop is
    answered 400. *)
Lemma invalid_params_redirect_to_login_refuted : ~ Stated.invalid_params_redirect_to_login.
Proof.
  intros H.
  destruct (H (Sample.env false) (Sample.config false false) (Sample.get "/app" [] [])
              Sample.emptyWorld Sample.emptyWorld eq_refl eq_refl (or_introl eq_refl))
    as (r & w' & Hrun & Hstatus & _).
  vm_compute in Hrun. injection Hrun as <- _. discriminate Hstatus.
Qed.

(** C10.  Under an embedded configuration, [getAuthenticatedSession]
    throws a bare [ShopifyError] when neither the header nor the URL
    carries a session token, and an error leaves it in that case only.
    When the api and the configuration agree on the embedded mode and
    [ensureSessionTokenSearchParamIfRequired] has returned for the request,
    that branch is not taken, and [ensureSessionExists] ends with no
    error. *)
Theorem missing_token_error_unreachable (env : Env) (config : AppConfig) (request : Request) :
  (forall w : World,
     isEmbeddedApp config = true ->
     truthy (orElse (getSessionTokenHeader env request)
               (Helpers.getSessionTokenFromUrlParam request)) = false ->
     AuthStrategy.getAuthenticatedSession env config request w
     = (Threw (ThrownError ShopifyError), w))
  /\ (forall (w : World) (e : Error),
        fst (AuthStrategy.getAuthenticatedSession env config request w)
        = Threw (ThrownError e) ->
        e = ShopifyError
        /\ isEmbeddedApp config = true
        /\ truthy (orElse (getSessionTokenHeader env request)
                     (Helpers.getSessionTokenFromUrlParam request)) = false)
  /\ (forall w w1 : World,
        apiIsEmbeddedApp env = isEmbeddedApp config ->
        AuthStrategy.ensureSessionTokenSearchParamIfRequired env config request w
        = (Returned tt, w1) ->
        AuthStrategy.sessionSource env config request <> AuthStrategy.NoSource
        /\ forall (w2 : World) (e : Error),
             fst (AuthStrategy.ensureSessionExists env config request w2)
             <> Threw (ThrownError e)).
Proof.
  assert (Hsource : AuthStrategy.sessionSource env config request = AuthStrategy.NoSource ->
                    isEmbeddedApp config = true
                    /\ truthy (orElse (getSessionTokenHeader env request)
                                 (Helpers.getSessionTokenFromUrlParam request)) = false).
  { unfold AuthStrategy.sessionSource.
    destruct (isEmbeddedApp config); simpl; [|discriminate].
    destruct (truthy _); [discriminate|]. now split. }
  split; [|split].
  - intros w Hembedded Hnone. unfold AuthStrategy.getAuthenticatedSession.
    unfold AuthStrategy.sessionSource. now rewrite Hembedded, Hnone.
  - intros w e He.
    destruct (getAuthenticatedSession_error env config request w e He) as [-> Hno].
    split; [reflexivity|]. now apply Hsource.
  - intros w w1 Hagree Hreturned.
    assert (Hyes : AuthStrategy.sessionSource env config request <> AuthStrategy.NoSource).
    { intros Hno. destruct (Hsource Hno) as [Hembedded Hnone].
      rewrite orElse_truthy in Hnone. apply orb_false_elim in Hnone as [_ Hparam].
      unfold AuthStrategy.ensureSessionTokenSearchParamIfRequired in Hreturned.
      unfold Helpers.getSessionTokenFromUrlParam in Hparam.
      rewrite Hagree, Hembedded, Hparam in Hreturned. discriminate Hreturned. }
    split; [exact Hyes|].
    intros w2 e He. apply Hyes.
    now destruct (ensureSessionExists_error env config request w2 e He).
Qed.

Lemma missing_token_error_unreachable_witness :
  AuthStrategy.getAuthenticatedSession (Sample.env true) (Sample.config true false)
    (Sample.get "/app" [("shop", "test-shop.myshopify.com")] []) Sample.installedWorld
  = (Threw (ThrownError ShopifyError), Sample.installedWorld)
  /\ AuthStrategy.sessionSource (Sample.env true) (Sample.config true false)
       (Sample.get "/app" [("shop", "test-shop.myshopify.com"); ("id_token", "valid-token")] [])
     <> AuthStrategy.NoSource.
Proof.
  split.
  - apply (proj1 (missing_token_error_unreachable (Sample.env true) (Sample.config true false)
                    (Sample.get "/app" [("shop", "test-shop.myshopify.com")] [])));
      reflexivity.
  - apply (proj2 (proj2 (missing_token_error_unreachable (Sample.env true)
                           (Sample.config true false)
                           (Sample.get "/app"
                              [("shop", "test-shop.myshopify.com"); ("id_token", "valid-token")]
                              [])))
             Sample.installedWorld Sample.installedWorld); reflexivity.
Defined.

(** * Further properties of the code *)

(** ** The login helper *)

Section MoreStringFacts.

Lemma startsWith_app (p s : string) : Str.startsWith p (p +:+ s) = true.
Proof.
  induction p as [|a p IH]; [reflexivity|].
  change (Str.startsWith (String a p) (String a (p +:+ s)) = true).
  simpl. now rewrite Ascii.eqb_refl.
Qed.

Lemma drop_app (p s : string) : Str.drop (String.length p) (p +:+ s) = s.
Proof.
  induction p as [|a p IH]; [reflexivity|].
  change (Str.drop (S (String.length p)) (String a (p +:+ s)) = s).
  exact IH.
Qed.

(** The first piece of a split holds no separator. *)
Lemma beforeFirst_without (c : ascii) (s : string) :
  Str.includes c (Str.beforeFirst c s) = false.
Proof.
  induction s as [|b s IH]; [reflexivity|].
  simpl. destruct (Ascii.eqb b c) eqn:E; [reflexivity|].
  simpl. now rewrite E.
Qed.

End MoreStringFacts.

Section MoreLoginFacts.

Import Login.

Variable env : Env.
Variable config : AppConfig.

Lemma shopWithDomain_https (s : string) :
  Str.stripProtocol s = s -> shopWithDomain ("https://" +:+ s) = shopWithDomain s.
Proof.
  intros Hbare. unfold shopWithDomain.
  rewrite includes_app. change (Str.includes "." "https://") with false.
  rewrite orb_false_l, Hbare.
  unfold Str.stripProtocol at 1 2. rewrite (startsWith_app "https://" s).
  pose proof (drop_app "https://" s) as Hdrop.
  change (String.length "https://") with 8%nat in Hdrop. now rewrite Hdrop.
Qed.

Lemma shopWithDomain_http (s : string) :
  Str.stripProtocol s = s -> shopWithDomain ("http://" +:+ s) = shopWithDomain s.
Proof.
  intros Hbare. unfold shopWithDomain.
  rewrite includes_app. change (Str.includes "." "http://") with false.
  rewrite orb_false_l, Hbare.
  unfold Str.stripProtocol at 1 2.
  change (Str.startsWith "https://" ("http://" +:+ s)) with false.
  rewrite (startsWith_app "http://" s).
  pose proof (drop_app "http://" s) as Hdrop.
  change (String.length "http://") with 7%nat in Hdrop. now rewrite Hdrop.
Qed.

End MoreLoginFacts.

(** X1.  The protocol of a shop address does not matter to [login]: a shop
    given with [https://] or [http://] in front is treated as the shop
    given without, as long as what follows carries no further protocol. *)
Theorem login_ignores_protocol (env : Env) (config : AppConfig) (s : string) :
  Str.stripProtocol s = s ->
  Login.loginWithShop env config ("https://" +:+ s) = Login.loginWithShop env config s
  /\ Login.loginWithShop env config ("http://" +:+ s) = Login.loginWithShop env config s.
Proof.
  intros Hbare. unfold Login.loginWithShop, Login.normalizeShop.
  now rewrite (shopWithDomain_https s Hbare), (shopWithDomain_http s Hbare).
Qed.

Lemma login_ignores_protocol_witness :
  Login.loginWithShop (Sample.env false) (Sample.config false false)
    "https://test-shop.myshopify.com"
  = Login.loginWithShop (Sample.env false) (Sample.config false false)
      "test-shop.myshopify.com".
Proof.
  apply (proj1 (login_ignores_protocol (Sample.env false) (Sample.config false false)
                  "test-shop.myshopify.com" eq_refl)).
Defined.

(** X2.  Whenever [login] answers with a response, it is a 302 to the page
    of the application in the admin of one store,
    [https://admin.shopify.com/store/<name>/apps/<apiKey>], where [<name>]
    is the part before the first dot of a shop the sanitizer returned for
    the shop of the request, and holds no dot itself. *)
Theorem login_redirect_target (env : Env) (config : AppConfig) (request : Request)
    (r : Response) :
  Login.login env config request = Threw (ThrownResponse r) ->
  status r = 302
  /\ exists form s sanitized,
       formData request = Some form
       /\ Login.requestedShop request form = Some s
       /\ Login.normalizeShop env s = Some sanitized
       /\ location r
          = Some ("https://admin.shopify.com/store/" +:+ Str.beforeFirst "." sanitized
                  +:+ "/apps/" +:+ apiKey config)
       /\ Str.includes "." (Str.beforeFirst "." sanitized) = false.
Proof.
  unfold Login.login.
  destruct (formData request) as [form|]; [|discriminate].
  destruct (Login.requestedShop request form) as [s|] eqn:Hshop; [|discriminate].
  destruct (String.eqb s ""); [discriminate|].
  unfold Login.loginWithShop.
  destruct (Login.normalizeShop env s) as [sanitized|] eqn:Hnorm; [|discriminate].
  simpl. destruct (negb (negb (String.eqb sanitized ""))); [discriminate|].
  intros [= <-]. split; [reflexivity|].
  exists form, s, sanitized.
  split; [reflexivity|]. split; [exact Hshop|]. split; [exact Hnorm|].
  split; [reflexivity|]. apply beforeFirst_without.
Qed.

Lemma login_redirect_target_witness :
  exists form s sanitized,
    formData (Sample.get "/auth/login" [("shop", "http://test-shop")] []) = Some form
    /\ Login.requestedShop (Sample.get "/auth/login" [("shop", "http://test-shop")] []) form
       = Some s
    /\ Login.normalizeShop (Sample.env false) s = Some sanitized
    /\ location (redirect "https://admin.shopify.com/store/test-shop/apps/sample-key")
       = Some ("https://admin.shopify.com/store/" +:+ Str.beforeFirst "." sanitized
               +:+ "/apps/" +:+ apiKey (Sample.config false false))
    /\ Str.includes "." (Str.beforeFirst "." sanitized) = false.
Proof.
  apply (login_redirect_target (Sample.env false) (Sample.config false false)
           (Sample.get "/auth/login" [("shop", "http://test-shop")] [])
           (redirect "https://admin.shopify.com/store/test-shop/apps/sample-key") eq_refl).
Defined.

(** X3.  What [login] does without a shop, and when it fails: it returns
    [MissingShop] exactly when the form can be read and neither the form
    nor the query names a non-empty shop (an empty field of the form
    gives way to the query); it throws an error exactly when the form
    cannot be read. *)
Theorem login_without_shop (env : Env) (config : AppConfig) (request : Request) :
  (Login.login env config request = Returned {| Login.shopError := Login.MissingShop |}
   <-> exists form,
         formData request = Some form
         /\ truthy (Login.requestedShop request form) = false)
  /\ ((exists e, Login.login env config request = Threw (ThrownError e))
      <-> formData request = None)
  /\ (forall form,
        formData request = Some form ->
        truthy (assoc "shop" form) = false ->
        Login.requestedShop request form = searchParams_get (url request) "shop").
Proof.
  split; [|split].
  - unfold Login.login. split.
    + destruct (formData request) as [form|]; [|discriminate].
      intros H. exists form. split; [reflexivity|].
      destruct (Login.requestedShop request form) as [s|]; [|reflexivity].
      simpl. destruct (String.eqb s "") eqn:E; [reflexivity|].
      exfalso. revert H. unfold Login.loginWithShop.
      destruct (Login.normalizeShop env s) as [x|]; simpl; [|discriminate].
      destruct (negb (negb (String.eqb x ""))); discriminate.
    + intros (form & -> & Hfalsy).
      destruct (Login.requestedShop request form) as [s|]; [|reflexivity].
      simpl in Hfalsy. apply negb_false_iff in Hfalsy. now rewrite Hfalsy.
  - unfold Login.login. split.
    + intros [e He]. destruct (formData request) as [form|]; [|reflexivity].
      exfalso. destruct (Login.requestedShop request form) as [s|]; [|discriminate].
      destruct (String.eqb s ""); [discriminate|].
      now apply (loginWithShop_no_error env config s e).
    + intros ->. eexists. reflexivity.
  - intros form _ Hnone. unfold Login.requestedShop. now rewrite Hnone.
Qed.

Lemma login_without_shop_witness :
  Login.login (Sample.env false) (Sample.config false false)
    {| method := "POST";
       url := {| hostname := "app.example"; pathname := "/auth/login"; search := "";
                 searchParams := [] |};
       headers := []; formData := Some [("shop", "")] |}
  = Returned {| Login.shopError := Login.MissingShop |}.
Proof.
  apply (proj1 (login_without_shop (Sample.env false) (Sample.config false false) _)).
  exists [("shop", "")]. split; reflexivity.
Defined.

(** ** The OAuth routes *)

Section MoreStrategyFacts.

Import Helpers AuthCodeFlowStrategy.

Variable env : Env.
Variable config : AppConfig.

Lemma bind_returned {A B} (m : M A) (k : A -> M B) (w w' : World) (b : B) :
  bind m k w = (Returned b, w') ->
  exists a w1, m w = (Returned a, w1) /\ k a w1 = (Returned b, w').
Proof.
  unfold bind. destruct (m w) as [[a|t] w1]; [|discriminate].
  intros H. now exists a, w1.
Qed.

(** On a route path [handleRoutes] ends with a response. *)
Lemma handleRoutes_route (request : Request) (w : World) :
  isRoute config request = true ->
  exists r w', handleRoutes env config request w = (Threw (ThrownResponse r), w').
Proof.
  unfold isRoute, handleRoutes, handleBouncePageRoute, handleExitIframeRoute,
    handleOAuthRoutes. run.
  destruct (String.eqb _ (patchSessionTokenPath _)); simpl; [eauto|].
  destruct (String.eqb _ (exitIframePath _)); simpl; [eauto|].
  destruct (String.eqb _ (path _)); simpl.
  - intros _. destruct (onParam _ _) as [s|]; [|eauto].
    destruct (String.eqb s ""); [eauto|].
    rewrite handleAuthBeginRequest_run. eauto.
  - destruct (String.eqb _ (callbackPath _)); simpl; [|discriminate].
    intros _. destruct (onParam _ _) as [s|]; [|eauto].
    destruct (String.eqb s ""); [eauto|].
    apply handleAuthCallbackRequest_responds.
Qed.

(** Off the callback path the storage is not written. *)
Lemma handleRoutes_storage (request : Request) (w : World) :
  String.eqb (pathname (url request)) (callbackPath (auth config)) = false ->
  storage (snd (handleRoutes env config request w)) = storage w.
Proof.
  intros Hcallback.
  unfold handleRoutes, handleBouncePageRoute, handleExitIframeRoute, handleOAuthRoutes.
  run. rewrite Hcallback.
  destruct (String.eqb _ (patchSessionTokenPath _)); simpl; [reflexivity|].
  destruct (String.eqb _ (exitIframePath _)); simpl; [reflexivity|].
  destruct (String.eqb _ (path _)); simpl; [|reflexivity].
  destruct (onParam _ _) as [s|]; [|reflexivity].
  destruct (String.eqb s ""); [reflexivity|].
  now rewrite handleAuthBeginRequest_run.
Qed.

End MoreStrategyFacts.

(** X4.  The four route paths are terminal: [handleRoutes] returns, and
    then leaves the world as it was, exactly for the requests whose path is
    none of the bounce, exit-iframe, begin and callback paths; on those
    four it ends with a response, never with an error. *)
Theorem routes_are_terminal (env : Env) (config : AppConfig) (request : Request) (w : World) :
  (AuthCodeFlowStrategy.handleRoutes env config request w = (Returned tt, w)
   <-> AuthCodeFlowStrategy.isRoute config request = false)
  /\ (forall w1 : World,
        AuthCodeFlowStrategy.handleRoutes env config request w = (Returned tt, w1) -> w1 = w)
  /\ (AuthCodeFlowStrategy.isRoute config request = true ->
      exists r w',
        AuthCodeFlowStrategy.handleRoutes env config request w
        = (Threw (ThrownResponse r), w')).
Proof.
  split; [|split].
  - split; [|apply handleRoutes_pass].
    intros Hreturned.
    destruct (AuthCodeFlowStrategy.isRoute config request) eqn:Hroute; [|reflexivity].
    destruct (handleRoutes_route env config request w Hroute) as (r & w' & Hthrown).
    rewrite Hthrown in Hreturned. discriminate Hreturned.
  - apply handleRoutes_returned.
  - apply handleRoutes_route.
Qed.

Lemma routes_are_terminal_witness :
  exists r w',
    AuthCodeFlowStrategy.handleRoutes (Sample.env true) (Sample.config true false)
      (Sample.get "/auth/session-token" [("shop", "test-shop.myshopify.com")] [])
      Sample.emptyWorld
    = (Threw (ThrownResponse r), w').
Proof.
  apply (proj2 (proj2 (routes_are_terminal (Sample.env true) (Sample.config true false)
                         (Sample.get "/auth/session-token"
                            [("shop", "test-shop.myshopify.com")] [])
                         Sample.emptyWorld)) eq_refl).
Defined.

(** X5.  Only the callback route writes to the session storage: for a
    request on any other path [handleRoutes] leaves the storage as it
    was. *)
Theorem only_callback_stores (env : Env) (config : AppConfig) (request : Request)
    (w : World) :
  pathname (url request) <> callbackPath (auth config) ->
  storage (snd (AuthCodeFlowStrategy.handleRoutes env config request w)) = storage w.
Proof.
  intros Hpath. apply handleRoutes_storage. now apply String.eqb_neq.
Qed.

Lemma only_callback_stores_witness :
  storage (snd (AuthCodeFlowStrategy.handleRoutes (Sample.env true) (Sample.config true false)
                  (Sample.get "/auth" [("shop", "test-shop.myshopify.com")] [])
                  Sample.installedWorld))
  = storage Sample.installedWorld.
Proof.
  apply (only_callback_stores (Sample.env true) (Sample.config true false)
           (Sample.get "/auth" [("shop", "test-shop.myshopify.com")] [])
           Sample.installedWorld).
  discriminate.
Defined.

(** X6.  On the begin and callback paths the shop parameter is checked
    before anything else: when it is missing or refused by the sanitizer,
    the answer is the 400 "Shop param is invalid", no exchange is made,
    nothing is stored and no redirect helper is called. *)
Theorem oauth_routes_reject_invalid_shop (env : Env) (config : AppConfig)
    (request : Request) (w : World) :
  pathname (url request) = path (auth config)
  \/ pathname (url request) = callbackPath (auth config) ->
  missingOrInvalid (sanitizeShop env) (searchParams_get (url request) "shop") = true ->
  AuthCodeFlowStrategy.handleOAuthRoutes env config request w
  = (Threw (ThrownResponse {| status := 400; statusText := ""; responseHeaders := [];
                              body := Some "Shop param is invalid" |}), w).
Proof.
  intros Hpath Hshop. unfold AuthCodeFlowStrategy.handleOAuthRoutes.
  assert (Hroute : negb (String.eqb (pathname (url request)) (path (auth config)))
                   && negb (String.eqb (pathname (url request)) (callbackPath (auth config)))
                   = false).
  { destruct Hpath as [-> | ->]; rewrite String.eqb_refl; simpl;
      [reflexivity|apply andb_false_r]. }
  rewrite Hroute. unfold missingOrInvalid in Hshop.
  destruct (onParam _ _) as [s|]; [|reflexivity].
  simpl in Hshop. apply negb_true_iff, negb_false_iff in Hshop. now rewrite Hshop.
Qed.

Lemma oauth_routes_reject_invalid_shop_witness :
  AuthCodeFlowStrategy.handleOAuthRoutes (Sample.env true) (Sample.config true false)
    (Sample.get "/auth/callback" [("shop", "evil.example"); ("code", "offline")] [])
    Sample.emptyWorld
  = (Threw (ThrownResponse {| status := 400; statusText := ""; responseHeaders := [];
                              body := Some "Shop param is invalid" |}), Sample.emptyWorld).
Proof.
  apply (oauth_routes_reject_invalid_shop (Sample.env true) (Sample.config true false)
           (Sample.get "/auth/callback" [("shop", "evil.example"); ("code", "offline")] [])
           Sample.emptyWorld).
  - right. reflexivity.
  - reflexivity.
Defined.

(** X7.  A callback that needs no second exchange (online tokens are not
    used, or the session is online) stores the session, runs the afterAuth
    hook once, on that session and on the storage that holds it, and when
    the hook returns ends with the redirect of
    [redirectToShopifyOrAppRoot], which carries the headers of the
    exchange.  Without a hook the redirect follows the store at once. *)
Theorem callback_completes (env : Env) (config : AppConfig) (A : Type) (request : Request)
    (shop : string) (s : Session) (hs : list (string * string)) (w : World) :
  authCallback env request = inr (s, hs) ->
  useOnlineTokens config && negb (isOnline s) = false ->
  exists r,
    responseHeaders r
    = ("Location", if isEmbeddedApp config then embeddedAppUrl env request else "/") :: hs
    /\ status r = 302
    /\ match afterAuth config with
       | Some hook =>
           forall st,
             hook s (<[id s := s]> (storage w)) = (None, st) ->
             AuthCodeFlowStrategy.handleAuthCallbackRequest (A:=A) env config request shop w
             = (Threw (ThrownResponse r),
                {| storage := st; calls := calls w ++ [AfterAuth s; ShopifyOrAppRoot] |})
       | None =>
           AuthCodeFlowStrategy.handleAuthCallbackRequest (A:=A) env config request shop w
           = (Threw (ThrownResponse r),
              {| storage := <[id s := s]> (storage w);
                 calls := calls w ++ [ShopifyOrAppRoot] |})
       end.
Proof.
  intros Hexchange Honce.
  exists {| status := 302; statusText := "";
            responseHeaders :=
              ("Location", if isEmbeddedApp config then embeddedAppUrl env request else "/")
              :: hs;
            body := None |}.
  split; [|split]; [reflexivity|reflexivity|].
  unfold AuthCodeFlowStrategy.handleAuthCallbackRequest,
    AuthCodeFlowStrategy.callbackAttempt, Helpers.triggerAfterAuthHook.
  rewrite Hexchange, Honce.
  destruct (afterAuth config) as [hook|]; run.
  - intros st Hhook. rewrite Hhook. simpl. now rewrite <- app_assoc.
  - reflexivity.
Qed.

Lemma callback_completes_witness :
  exists r,
    AuthCodeFlowStrategy.handleAuthCallbackRequest (A:=unit) (Sample.env true)
      (Sample.config true false)
      (Sample.get "/auth/callback" [("shop", "test-shop.myshopify.com"); ("code", "offline")] [])
      "test-shop.myshopify.com" Sample.emptyWorld
    = (Threw (ThrownResponse r),
       {| storage := <[id Sample.offlineSession := Sample.offlineSession]> ∅;
          calls := [AfterAuth Sample.offlineSession; ShopifyOrAppRoot] |})
    /\ assoc "Set-Cookie" (responseHeaders r) = Some "state=;".
Proof.
  destruct (callback_completes (Sample.env true) (Sample.config true false) unit
              (Sample.get "/auth/callback"
                 [("shop", "test-shop.myshopify.com"); ("code", "offline")] [])
              "test-shop.myshopify.com" Sample.offlineSession [("Set-Cookie", "state=;")]
              Sample.emptyWorld eq_refl eq_refl) as (r & Hheaders & _ & Hrun).
  exists r. split.
  - apply (Hrun _ eq_refl).
  - rewrite Hheaders. reflexivity.
Defined.

(** X8.  When the afterAuth hook throws, the session of the exchange has
    been stored already and stays as the hook left the storage; the final
    redirect is not issued.  A response thrown by the hook is the answer
    of the callback; an error of no special class is answered 500. *)
Theorem callback_hook_failure (env : Env) (config : AppConfig) (A : Type)
    (request : Request) (shop : string) (s : Session) (hs : list (string * string))
    (hook : AfterAuthHook) (t : Thrown) (st : gmap string Session) (w : World) :
  authCallback env request = inr (s, hs) ->
  useOnlineTokens config && negb (isOnline s) = false ->
  afterAuth config = Some hook ->
  hook s (<[id s := s]> (storage w)) = (Some t, st) ->
  match t with
  | ThrownResponse r =>
      AuthCodeFlowStrategy.handleAuthCallbackRequest (A:=A) env config request shop w
      = (Threw (ThrownResponse r), {| storage := st; calls := calls w ++ [AfterAuth s] |})
  | ThrownError e =>
      AuthCodeFlowStrategy.classify e = AuthCodeFlowStrategy.ServerError ->
      exists r,
        AuthCodeFlowStrategy.handleAuthCallbackRequest (A:=A) env config request shop w
        = (Threw (ThrownResponse r), {| storage := st; calls := calls w ++ [AfterAuth s] |})
        /\ status r = 500
  end.
Proof.
  intros Hexchange Honce Hconfigured Hhook.
  unfold AuthCodeFlowStrategy.handleAuthCallbackRequest,
    AuthCodeFlowStrategy.callbackAttempt, Helpers.triggerAfterAuthHook.
  rewrite Hexchange, Honce, Hconfigured. run. rewrite Hhook. simpl.
  destruct t as [r|e]; [reflexivity|].
  intros Hclass.
  destruct e; simpl in Hclass; try discriminate Hclass;
    eexists; (split; [reflexivity|reflexivity]).
Qed.

Lemma callback_hook_failure_witness :
  exists r,
    AuthCodeFlowStrategy.handleAuthCallbackRequest (A:=unit) (Sample.env true)
      (Sample.withAfterAuth (Some Sample.failingHook) (Sample.config true false))
      (Sample.get "/auth/callback" [("shop", "test-shop.myshopify.com"); ("code", "offline")] [])
      "test-shop.myshopify.com" Sample.emptyWorld
    = (Threw (ThrownResponse r),
       {| storage := <[id Sample.offlineSession := Sample.offlineSession]> ∅;
          calls := [AfterAuth Sample.offlineSession] |})
    /\ status r = 500.
Proof.
  apply (callback_hook_failure (Sample.env true)
           (Sample.withAfterAuth (Some Sample.failingHook) (Sample.config true false)) unit
           (Sample.get "/auth/callback"
              [("shop", "test-shop.myshopify.com"); ("code", "offline")] [])
           "test-shop.myshopify.com" Sample.offlineSession [("Set-Cookie", "state=;")]
           Sample.failingHook (ThrownError (OtherError "hook failed"))
           (<[id Sample.offlineSession := Sample.offlineSession]> ∅) Sample.emptyWorld
           eq_refl eq_refl eq_refl eq_refl eq_refl).
Defined.

(** ** The decision engine *)

Section MoreEngineFacts.

Import Helpers AuthCodeFlowStrategy AuthStrategy.

Variable env : Env.
Variable config : AppConfig.

Lemma validateUrlParams_returned (request : Request) (w w' : World) :
  validateUrlParams env config request w = (Returned tt, w') ->
  w' = w
  /\ (isEmbeddedApp config = true ->
      missingOrInvalid (sanitizeShop env) (searchParams_get (url request) "shop") = false
      /\ missingOrInvalid (sanitizeHost env) (searchParams_get (url request) "host") = false).
Proof.
  unfold validateUrlParams, missingOrInvalid.
  destruct (isEmbeddedApp config); [|intros [= <-]; split; [reflexivity|discriminate]].
  destruct (negb (truthy (onParam (sanitizeShop env) _))); [discriminate|].
  destruct (negb (truthy (onParam (sanitizeHost env) _))); [discriminate|].
  intros [= <-]. split; [reflexivity|]. intros _. split; reflexivity.
Qed.

(** [getOfflineToken] reads the storage and nothing else. *)
Lemma getOfflineToken_run (request : Request) (w : World) :
  (exists r, getOfflineToken env request w = (Threw (ThrownResponse r), w))
  \/ (exists i, getOfflineToken env request w = (Returned (storage w !! i), w)).
Proof.
  unfold getOfflineToken.
  destruct (match searchParams_get (url request) "shop" with
            | Some s => _
            | None => _
            end) as [i|]; [|left; eauto].
  destruct (String.eqb i ""); [left; eauto|right; eauto].
Qed.

Lemma handleInvalidOfflineSession_run (e : Error) (request : Request) (shop : string)
    (w : World) :
  handleInvalidOfflineSession env e request shop w = (Returned tt, w)
  \/ exists r w', handleInvalidOfflineSession env e request shop w
                  = (Threw (ThrownResponse r), w')
                  /\ storage w' = storage w.
Proof.
  destruct e; simpl; try (left; reflexivity).
  - right. destruct (code =? 401); do 2 eexists; split; reflexivity.
  - right. do 2 eexists. split; reflexivity.
Qed.

Lemma ensureInstalledOnShop_returned (request : Request) (w w' : World) :
  ensureInstalledOnShop env config request w = (Returned tt, w') ->
  w' = w /\ exists i offline, storage w !! i = Some offline.
Proof.
  unfold ensureInstalledOnShop. intros H.
  apply bind_returned in H as (o & w1 & Hload & H).
  destruct (getOfflineToken_run request w) as [(r & Hr)|(i & Hi)];
    rewrite Hload in *; [discriminate|].
  injection Hi as -> ->.
  destruct (storage w !! i) as [offline|] eqn:Hstored.
  - split; [|eauto].
    destruct (isEmbeddedApp config && _); [|now injection H].
    unfold tryCatch, testSession in H.
    destruct (testQuery env offline) as [e|]; [|now injection H].
    simpl in H.
    match type of H with
    | handleInvalidOfflineSession _ _ _ ?sh _ = _ =>
        destruct (handleInvalidOfflineSession_run e request sh w)
          as [Hret|(r & w2 & Hthrown & _)]
    end; rewrite H in *; [now injection Hret|discriminate].
  - destruct (isString _ "1"); discriminate.
Qed.

Lemma ensureAppIsEmbeddedIfRequired_returned (request : Request) (w w' : World) :
  ensureAppIsEmbeddedIfRequired env config request w = (Returned tt, w') ->
  w' = w
  /\ (apiIsEmbeddedApp env = true ->
      isString (searchParams_get (url request) "embedded") "1" = true).
Proof.
  unfold ensureAppIsEmbeddedIfRequired.
  destruct (apiIsEmbeddedApp env); simpl.
  - destruct (isString _ "1"); simpl; [|discriminate].
    intros [= <-]. now split.
  - intros [= <-]. split; [reflexivity|discriminate].
Qed.

Lemma ensureSessionTokenSearchParamIfRequired_returned (request : Request) (w w' : World) :
  ensureSessionTokenSearchParamIfRequired env config request w = (Returned tt, w') ->
  w' = w
  /\ (apiIsEmbeddedApp env = true ->
      truthy (searchParams_get (url request) "id_token") = true).
Proof.
  unfold ensureSessionTokenSearchParamIfRequired.
  destruct (apiIsEmbeddedApp env); simpl.
  - destruct (truthy _); simpl; [|discriminate].
    intros [= <-]. now split.
  - intros [= <-]. split; [reflexivity|discriminate].
Qed.

End MoreEngineFacts.

Section ReturnedContexts.

Import Helpers AuthCodeFlowStrategy AuthStrategy.

Variable env : Env.
Variable config : AppConfig.

Lemma getAuthenticatedSession_returned (request : Request) (w w' : World)
    (found : ShopWithSessionContext) :
  getAuthenticatedSession env config request w = (Returned found, w') ->
  w' = w
  /\ forall ctx, sessionContext found = Some ctx -> foundFrom env config request w ctx.
Proof.
  unfold getAuthenticatedSession, foundFrom.
  destruct (sessionSource env config request) as [tok| |]; run.
  - destruct (validateSessionToken env tok) as [r|payload]; simpl; [discriminate|].
    destruct (negb (negb (String.eqb (tokenSessionId env config payload) ""))); simpl.
    + intros [= <- <-]. split; [reflexivity|discriminate].
    + intros [= <- <-]. split; [reflexivity|]. simpl.
      destruct (storage w !! tokenSessionId env config payload) as [s|] eqn:Hs;
        [|discriminate].
      intros ctx [= <-]. exists payload. now repeat split.
  - destruct (getCurrentId env (useOnlineTokens config) request) as [sid|]; simpl.
    + destruct (negb (negb (String.eqb sid ""))); simpl.
      * intros [= <- <-]. split; [reflexivity|discriminate].
      * intros [= <- <-]. split; [reflexivity|]. simpl.
        destruct (storage w !! sid) as [s|] eqn:Hs; [|discriminate].
        intros ctx [= <-]. exists sid. now repeat split.
    + intros [= <- <-]. split; [reflexivity|discriminate].
  - discriminate.
Qed.

(** [manageAccessToken] and [ensureSessionExists] let only an active
    session through. *)
Lemma manageAccessToken_returned (found : option SessionContext) (sh : option string)
    (request : Request) (w w' : World) (ctx : SessionContext) :
  manageAccessToken env config found sh request w = (Returned ctx, w') ->
  w' = w /\ found = Some ctx /\ isActive env (session ctx) (scopes config) = true.
Proof.
  unfold manageAccessToken.
  destruct (redirectToAuthPage_responds env config (A:=SessionContext) request sh w)
    as (r & w1 & Hredirect & _).
  destruct found as [c|]; [|rewrite Hredirect; discriminate].
  destruct (isActive env (session c) (scopes config)) eqn:Hactive; simpl;
    [|rewrite Hredirect; discriminate].
  intros [= <- <-]. now repeat split.
Qed.

Lemma ensureSessionExists_returned (request : Request) (w w' : World) (ctx : SessionContext) :
  ensureSessionExists env config request w = (Returned ctx, w') ->
  w' = w
  /\ foundFrom env config request w ctx
  /\ isActive env (session ctx) (scopes config) = true.
Proof.
  unfold ensureSessionExists. intros H.
  apply bind_returned in H as (found & w1 & Hfound & H).
  apply getAuthenticatedSession_returned in Hfound as [-> Hfrom].
  destruct (redirectToAuthPage_responds env config (A:=SessionContext) request
              (shopOf found) w) as (r & w1 & Hredirect & _).
  destruct (sessionContext found) as [c|]; [|rewrite Hredirect in H; discriminate].
  destruct (isActive env (session c) (scopes config)) eqn:Hactive; simpl in H;
    [|rewrite Hredirect in H; discriminate].
  injection H as <- <-. split; [reflexivity|]. split; [now apply Hfrom|exact Hactive].
Qed.

(** A request for which the decision returns: the route paths, the world
    and the session. *)
Lemma authenticateAndGetSessionContext_returned (request : Request) (w w' : World)
    (ctx : SessionContext) :
  authenticateAndGetSessionContext env config request w = (Returned ctx, w') ->
  w' = w
  /\ isRoute config request = false
  /\ foundFrom env config request w ctx
  /\ isActive env (session ctx) (scopes config) = true.
Proof.
  unfold authenticateAndGetSessionContext. intros H.
  apply bind_returned in H as ([] & w1 & Hroutes & H).
  pose proof (handleRoutes_returned env config request w w1 Hroutes) as ->.
  assert (Hroute : isRoute config request = false).
  { destruct (isRoute config request) eqn:E; [|reflexivity].
    destruct (handleRoutes_route env config request w E) as (r & w2 & Hthrown).
    rewrite Hthrown in Hroutes. discriminate Hroutes. }
  destruct (truthy (getSessionTokenHeader env request)).
  - apply bind_returned in H as (found & w1 & Hfound & H).
    apply getAuthenticatedSession_returned in Hfound as [-> Hfrom].
    apply manageAccessToken_returned in H as (-> & Hctx & Hactive).
    split; [reflexivity|]. split; [exact Hroute|]. split; [now apply Hfrom|exact Hactive].
  - apply bind_returned in H as ([] & w1 & H1 & H).
    apply validateUrlParams_returned in H1 as [-> _].
    apply bind_returned in H as ([] & w1 & H2 & H).
    apply ensureInstalledOnShop_returned in H2 as [-> _].
    apply bind_returned in H as ([] & w1 & H3 & H).
    apply ensureAppIsEmbeddedIfRequired_returned in H3 as [-> _].
    apply bind_returned in H as ([] & w1 & H4 & H).
    apply ensureSessionTokenSearchParamIfRequired_returned in H4 as [-> _].
    apply ensureSessionExists_returned in H as (-> & Hfrom & Hactive).
    now repeat split.
Qed.

End ReturnedContexts.

Section AdminFacts.

Import Helpers AuthCodeFlowStrategy AuthStrategy.

Variable env : Env.
Variable config : AppConfig.

Lemma authenticateAdmin_returned (request : Request) (w w' : World) (c : AdminContext) :
  authenticateAdmin env config request w = (Returned c, w') ->
  isBot env request = false
  /\ method request <> "OPTIONS"
  /\ exists ctx,
       authenticateAndGetSessionContext env config request w = (Returned ctx, w')
       /\ c = if isEmbeddedApp config
              then EmbeddedAdminContext (session ctx) (token ctx)
              else NonEmbeddedAdminContext (session ctx).
Proof.
  unfold authenticateAdmin, rejectBotRequest, respondToOptionsRequest.
  destruct (isBot env request); [discriminate|].
  destruct (String.eqb (method request) "OPTIONS") eqn:Hmethod; [discriminate|].
  run. intros H. split; [reflexivity|]. split; [now apply String.eqb_neq|].
  destruct (authenticateAndGetSessionContext env config request w) as [[ctx|[r|e]] w1];
    simpl in H; [|discriminate|discriminate].
  exists ctx. destruct (isEmbeddedApp config); injection H as <- <-; now split.
Qed.

Lemma sessionSource_token (request : Request) (tok : string) :
  sessionSource env config request = FromSessionToken tok ->
  isEmbeddedApp config = true
  /\ orElse (getSessionTokenHeader env request) (getSessionTokenFromUrlParam request)
     = Some tok
  /\ tok <> "".
Proof.
  unfold sessionSource.
  destruct (isEmbeddedApp config); simpl; [|discriminate].
  destruct (orElse _ _) as [t|]; simpl; [|discriminate].
  destruct (String.eqb t "") eqn:Ht; simpl; [discriminate|].
  intros [= <-]. split; [reflexivity|]. split; [reflexivity|]. now apply String.eqb_neq.
Qed.

Lemma sessionSource_currentId (request : Request) :
  sessionSource env config request = FromCurrentId -> isEmbeddedApp config = false.
Proof.
  unfold sessionSource.
  destruct (isEmbeddedApp config); simpl; [|reflexivity].
  destruct (truthy _); discriminate.
Qed.

End AdminFacts.

(** X9.  A context is returned only for a session that is stored and
    active: when [authenticateAdmin] returns, the session of the context is
    a record of the storage that satisfies [isActive(config.scopes)], the
    request was on none of the route paths, and the world is as it was
    (nothing stored, no redirect helper called). *)
Theorem returned_session_is_stored_and_active (env : Env) (config : AppConfig)
    (request : Request) (w w' : World) (c : AuthStrategy.AdminContext) :
  AuthStrategy.authenticateAdmin env config request w = (Returned c, w') ->
  w' = w
  /\ isActive env (AuthStrategy.contextSession c) (scopes config) = true
  /\ (exists sid, storage w !! sid = Some (AuthStrategy.contextSession c))
  /\ AuthCodeFlowStrategy.isRoute config request = false.
Proof.
  intros H.
  apply authenticateAdmin_returned in H as (_ & _ & ctx & H & ->).
  apply authenticateAndGetSessionContext_returned in H as (-> & Hroute & Hfrom & Hactive).
  assert (Hsession : AuthStrategy.contextSession
                       (if isEmbeddedApp config
                        then AuthStrategy.EmbeddedAdminContext (session ctx) (token ctx)
                        else AuthStrategy.NonEmbeddedAdminContext (session ctx))
                     = session ctx)
    by now destruct (isEmbeddedApp config).
  rewrite Hsession. split; [reflexivity|]. split; [exact Hactive|]. split; [|exact Hroute].
  unfold AuthStrategy.foundFrom in Hfrom.
  destruct (AuthStrategy.sessionSource env config request) as [tok| |].
  - destruct Hfrom as (payload & _ & _ & Hstored). eauto.
  - destruct Hfrom as (sid & _ & _ & Hstored). eauto.
  - destruct Hfrom.
Qed.

Lemma returned_session_is_stored_and_active_witness :
  isActive (Sample.env true) Sample.offlineSession (scopes (Sample.config true false)) = true
  /\ exists sid, storage Sample.installedWorld !! sid = Some Sample.offlineSession.
Proof.
  destruct (returned_session_is_stored_and_active (Sample.env true) (Sample.config true false)
              (Sample.get "/app" [] [("authorization", "Bearer valid-token")])
              Sample.installedWorld Sample.installedWorld
              (AuthStrategy.EmbeddedAdminContext Sample.offlineSession (Some Sample.payload))
              eq_refl) as (_ & Hactive & Hstored & _).
  split; [exact Hactive|exact Hstored].
Defined.

(** X10.  The session of a returned context is the one the evidence of
    the request names.  Under an embedded configuration the context is the
    embedded one, its session token is the decoded payload of the token of
    the header (or, without a header, of the [id_token] parameter), and
    its session is the record stored under the identifier of that payload;
    the token is never absent.  Under a non-embedded configuration the
    context is the plain one and its session is the record stored under
    the current identifier of the request. *)
Theorem returned_context_matches_evidence (env : Env) (config : AppConfig)
    (request : Request) (w w' : World) (c : AuthStrategy.AdminContext) :
  AuthStrategy.authenticateAdmin env config request w = (Returned c, w') ->
  if isEmbeddedApp config
  then exists tok payload s,
         c = AuthStrategy.EmbeddedAdminContext s (Some payload)
         /\ orElse (getSessionTokenHeader env request)
              (Helpers.getSessionTokenFromUrlParam request) = Some tok
         /\ validateSessionToken env tok = inr payload
         /\ storage w !! AuthStrategy.tokenSessionId env config payload = Some s
  else exists sid s,
         c = AuthStrategy.NonEmbeddedAdminContext s
         /\ getCurrentId env (useOnlineTokens config) request = Some sid
         /\ storage w !! sid = Some s.
Proof.
  intros H.
  apply authenticateAdmin_returned in H as (_ & _ & ctx & H & ->).
  apply authenticateAndGetSessionContext_returned in H as (-> & _ & Hfrom & _).
  unfold AuthStrategy.foundFrom in Hfrom.
  destruct (AuthStrategy.sessionSource env config request) as [tok| |] eqn:Hsource.
  - apply sessionSource_token in Hsource as (-> & Htok & _).
    destruct Hfrom as (payload & Hvalid & Htoken & Hstored).
    exists tok, payload, (session ctx). rewrite Htoken. now repeat split.
  - apply sessionSource_currentId in Hsource as ->.
    destruct Hfrom as (sid & Hid & _ & Hstored).
    exists sid, (session ctx). now repeat split.
  - destruct Hfrom.
Qed.

Lemma returned_context_matches_evidence_witness :
  exists tok payload s,
    AuthStrategy.EmbeddedAdminContext Sample.offlineSession (Some Sample.payload)
    = AuthStrategy.EmbeddedAdminContext s (Some payload)
    /\ orElse (getSessionTokenHeader (Sample.env true)
                 (Sample.get "/app" [] [("authorization", "Bearer valid-token")]))
         (Helpers.getSessionTokenFromUrlParam
            (Sample.get "/app" [] [("authorization", "Bearer valid-token")])) = Some tok
    /\ validateSessionToken (Sample.env true) tok = inr payload
    /\ storage Sample.installedWorld
         !! AuthStrategy.tokenSessionId (Sample.env true) (Sample.config true false) payload
       = Some s.
Proof.
  apply (returned_context_matches_evidence (Sample.env true) (Sample.config true false)
           (Sample.get "/app" [] [("authorization", "Bearer valid-token")])
           Sample.installedWorld Sample.installedWorld
           (AuthStrategy.EmbeddedAdminContext Sample.offlineSession (Some Sample.payload))
           eq_refl).
Defined.

Section InstallFacts.

Import Helpers AuthCodeFlowStrategy AuthStrategy.

Variable env : Env.
Variable config : AppConfig.

(** With a shop in the query, the offline session is looked up under the
    offline identifier of that shop. *)
Lemma getOfflineToken_of_shop (request : Request) (s : string) (w : World) :
  searchParams_get (url request) "shop" = Some s ->
  s <> "" ->
  getOfflineId env s <> "" ->
  getOfflineToken env request w = (Returned (storage w !! getOfflineId env s), w).
Proof.
  intros Hshop Hs Hid. unfold getOfflineToken. rewrite Hshop.
  apply String.eqb_neq in Hs, Hid. now rewrite Hs, Hid.
Qed.




End InstallFacts.

(** X12.  What the check of an installed shop makes of the answer to its
    test query, for an embedded application reached outside the admin: no
    error lets the request go on; a 401 restarts OAuth for the shop; any
    other HTTP error is passed to the client with its status and status
    text; a GraphQL error is answered 500; any other error is dropped, and
    the request goes on as if the session were valid. *)
Theorem installed_shop_test_query (env : Env) (config : AppConfig) (request : Request)
    (s : string) (offline : Session) (w : World) :
  searchParams_get (url request) "shop" = Some s ->
  s <> "" ->
  getOfflineId env s <> "" ->
  storage w !! getOfflineId env s = Some offline ->
  isEmbeddedApp config = true ->
  isString (searchParams_get (url request) "embedded") "1" = false ->
  AuthStrategy.ensureInstalledOnShop env config request w
  = match testQuery env offline with
    | None => (Returned tt, w)
    | Some (HttpResponseError code text _) =>
        if code =? 401
        then (Threw (ThrownResponse (redirect (authorizeUrl env (Some s) false))),
              {| storage := storage w; calls := calls w ++ [BeginAuth (Some s) false] |})
        else (Threw (ThrownResponse {| status := code; statusText := text;
                                       responseHeaders := []; body := None |}), w)
    | Some (GraphqlQueryError _ _) =>
        (Threw (ThrownResponse {| status := 500; statusText := "Internal Server Error";
                                  responseHeaders := []; body := None |}), w)
    | Some _ => (Returned tt, w)
    end.
Proof.
  intros Hshop Hs Hid Hstored Hembedded Hnot.
  unfold AuthStrategy.ensureInstalledOnShop, bind.
  rewrite (getOfflineToken_of_shop env request s w Hshop Hs Hid), Hstored, Hembedded, Hnot,
    Hshop.
  unfold tryCatch, AuthStrategy.testSession.
  assert (Htruthy : truthy (Some s) = true).
  { simpl. apply String.eqb_neq in Hs. now rewrite Hs. }
  rewrite Htruthy. simpl.
  destruct (testQuery env offline) as [[| | | |code text b| |]|]; try reflexivity.
  simpl. now destruct (code =? 401).
Qed.

Lemma installed_shop_test_query_witness :
  AuthStrategy.ensureInstalledOnShop
    (Sample.withTestQuery (Some (HttpResponseError 503 "Service Unavailable" "{}"))
       (Sample.env true))
    (Sample.config true false)
    (Sample.get "/app" [("shop", "test-shop.myshopify.com")] []) Sample.installedWorld
  = (Threw (ThrownResponse {| status := 503; statusText := "Service Unavailable";
                              responseHeaders := []; body := None |}),
     Sample.installedWorld).
Proof.
  apply (installed_shop_test_query
           (Sample.withTestQuery (Some (HttpResponseError 503 "Service Unavailable" "{}"))
              (Sample.env true))
           (Sample.config true false)
           (Sample.get "/app" [("shop", "test-shop.myshopify.com")] [])
           "test-shop.myshopify.com" Sample.offlineSession Sample.installedWorld);
    try reflexivity; discriminate.
Defined.

(** X13.  A shop of the query for which no offline session is stored has
    not installed the application: the request ends with the begin of
    OAuth for that shop, through the exit of the iframe when the request
    says [embedded=1] and directly otherwise; the storage is not
    touched. *)
Theorem not_installed_begins_oauth (env : Env) (config : AppConfig) (request : Request)
    (s : string) (w : World) :
  searchParams_get (url request) "shop" = Some s ->
  s <> "" ->
  getOfflineId env s <> "" ->
  storage w !! getOfflineId env s = None ->
  exists r,
    AuthStrategy.ensureInstalledOnShop env config request w
    = (Threw (ThrownResponse r),
       {| storage := storage w;
          calls := calls w
                   ++ [if isString (searchParams_get (url request) "embedded") "1"
                       then ExitIframe (Some s)
                       else BeginAuth (Some s) false] |})
    /\ status r = 302.
Proof.
  intros Hshop Hs Hid Hstored.
  unfold AuthStrategy.ensureInstalledOnShop, bind.
  rewrite (getOfflineToken_of_shop env request s w Hshop Hs Hid), Hstored, Hshop.
  destruct (isString _ "1"); eexists; (split; [reflexivity|reflexivity]).
Qed.

Lemma not_installed_begins_oauth_witness :
  exists r,
    AuthStrategy.ensureInstalledOnShop (Sample.env true) (Sample.config true false)
      (Sample.get "/app" [("shop", "test-shop.myshopify.com"); ("embedded", "1")] [])
      Sample.emptyWorld
    = (Threw (ThrownResponse r),
       {| storage := ∅; calls := [ExitIframe (Some "test-shop.myshopify.com")] |})
    /\ status r = 302.
Proof.
  apply (not_installed_begins_oauth (Sample.env true) (Sample.config true false)
           (Sample.get "/app" [("shop", "test-shop.myshopify.com"); ("embedded", "1")] [])
           "test-shop.myshopify.com" Sample.emptyWorld); try reflexivity; discriminate.
Defined.

(** Without a shop in the query (or with an empty one) and without a
    current session identifier, [ensureInstalledOnShop] cannot tell the
    shop and ends with the 400 "Bad Request". *)
Lemma unknown_shop_is_bad_request (env : Env) (config : AppConfig) (request : Request)
    (w : World) :
  truthy (searchParams_get (url request) "shop") = false ->
  truthy (getCurrentId env false request) = false ->
  AuthStrategy.ensureInstalledOnShop env config request w
  = (Threw (ThrownResponse {| status := 400; statusText := "Bad Request";
                              responseHeaders := []; body := None |}), w).
Proof.
  intros Hshop Hid.
  unfold AuthStrategy.ensureInstalledOnShop, AuthStrategy.getOfflineToken, bind.
  destruct (searchParams_get (url request) "shop") as [s|]; simpl in Hshop.
  - apply negb_false_iff in Hshop. rewrite Hshop.
    destruct (getCurrentId env false request) as [i|]; [|reflexivity].
    simpl in Hid. apply negb_false_iff in Hid. now rewrite Hid.
  - destruct (getCurrentId env false request) as [i|]; [|reflexivity].
    simpl in Hid. apply negb_false_iff in Hid. now rewrite Hid.
Qed.

Lemma unknown_shop_is_bad_request_witness :
  AuthStrategy.ensureInstalledOnShop (Sample.env false) (Sample.config false false)
    (Sample.get "/app" [("shop", "")] []) Sample.installedWorld
  = (Threw (ThrownResponse {| status := 400; statusText := "Bad Request";
                              responseHeaders := []; body := None |}),
     Sample.installedWorld).
Proof.
  apply (unknown_shop_is_bad_request (Sample.env false) (Sample.config false false)
           (Sample.get "/app" [("shop", "")] []) Sample.installedWorld); reflexivity.
Defined.

(** X16.  From the top: a callback request (on the callback path, with a
    shop the sanitizer accepts) whose exchange fails on the HMAC or on the
    OAuth state makes [authenticateAdmin] end with a response of status
    400 that carries the CORS headers of the request and nothing else; the
    world is as it was. *)
Theorem admin_rejects_invalid_callback (env : Env) (config : AppConfig) (request : Request)
    (s : string) (e : Error) (w : World) :
  isBot env request = false ->
  method request <> "OPTIONS" ->
  pathname (url request) = callbackPath (auth config) ->
  pathname (url request) <> patchSessionTokenPath (auth config) ->
  pathname (url request) <> exitIframePath (auth config) ->
  pathname (url request) <> path (auth config) ->
  onParam (sanitizeShop env) (searchParams_get (url request) "shop") = Some s ->
  s <> "" ->
  authCallback env request = inl e ->
  e = InvalidHmacError \/ e = InvalidOAuthError ->
  exists r,
    AuthStrategy.authenticateAdmin env config request w = (Threw (ThrownResponse r), w)
    /\ status r = 400
    /\ responseHeaders r = corsHeaders env request.
Proof.
  intros Hbot Hmethod Hcallback Hbounce Hexit Hbegin Hshop Hs Hfail He.
  apply String.eqb_neq in Hmethod, Hbounce, Hexit, Hbegin, Hs.
  unfold AuthStrategy.authenticateAdmin, Helpers.rejectBotRequest,
    Helpers.respondToOptionsRequest, AuthStrategy.authenticateAndGetSessionContext,
    AuthCodeFlowStrategy.handleRoutes, AuthCodeFlowStrategy.handleBouncePageRoute,
    AuthCodeFlowStrategy.handleExitIframeRoute, AuthCodeFlowStrategy.handleOAuthRoutes.
  rewrite Hbot, Hmethod, Hbounce, Hexit, Hbegin, Hshop, Hs.
  rewrite Hcallback, String.eqb_refl. run.
  rewrite (handleAuthCallbackRequest_caught env config request s e w w
             (callbackAttempt_failed env config request s e w Hfail)).
  destruct He as [-> | ->]; simpl; eexists; (split; [reflexivity|split; reflexivity]).
Qed.

Lemma admin_rejects_invalid_callback_witness :
  exists r,
    AuthStrategy.authenticateAdmin (Sample.env true) (Sample.config true false)
      (Sample.get "/auth/callback"
         [("shop", "test-shop.myshopify.com"); ("code", "bad-state")] [])
      Sample.installedWorld
    = (Threw (ThrownResponse r), Sample.installedWorld)
    /\ status r = 400
    /\ responseHeaders r = [].
Proof.
  apply (admin_rejects_invalid_callback (Sample.env true) (Sample.config true false)
           (Sample.get "/auth/callback"
              [("shop", "test-shop.myshopify.com"); ("code", "bad-state")] [])
           "test-shop.myshopify.com" InvalidOAuthError Sample.installedWorld);
    try reflexivity; try discriminate.
  right. reflexivity.
Defined.

Section DocumentRequests.

Import Helpers AuthCodeFlowStrategy AuthStrategy.

Variable env : Env.
Variable config : AppConfig.

Lemma validateUrlParams_pass (request : Request) (w : World) :
  missingOrInvalid (sanitizeShop env) (searchParams_get (url request) "shop") = false ->
  missingOrInvalid (sanitizeHost env) (searchParams_get (url request) "host") = false ->
  validateUrlParams env config request w = (Returned tt, w).
Proof.
  unfold missingOrInvalid, validateUrlParams. intros -> ->.
  now destruct (isEmbeddedApp config).
Qed.

Lemma ensureInstalledOnShop_pass (request : Request) (s : string) (offline : Session)
    (w : World) :
  searchParams_get (url request) "shop" = Some s ->
  s <> "" ->
  getOfflineId env s <> "" ->
  storage w !! getOfflineId env s = Some offline ->
  (isEmbeddedApp config = true ->
   isString (searchParams_get (url request) "embedded") "1" = false ->
   testQuery env offline = None) ->
  ensureInstalledOnShop env config request w = (Returned tt, w).
Proof.
  intros Hshop Hs Hid Hstored Hquery.
  unfold ensureInstalledOnShop, bind.
  rewrite (getOfflineToken_of_shop env request s w Hshop Hs Hid), Hstored.
  destruct (isEmbeddedApp config); simpl; [|reflexivity].
  destruct (isString (searchParams_get (url request) "embedded") "1"); simpl;
    [reflexivity|].
  unfold tryCatch, testSession. now rewrite (Hquery eq_refl eq_refl).
Qed.

(** The steps of the branch without a token header, for an application
    that is installed on the shop of the query. *)
Lemma installed_steps (request : Request) (s : string) (offline : Session) (w : World) :
  isRoute config request = false ->
  truthy (getSessionTokenHeader env request) = false ->
  searchParams_get (url request) "shop" = Some s ->
  s <> "" ->
  missingOrInvalid (sanitizeShop env) (Some s) = false ->
  missingOrInvalid (sanitizeHost env) (searchParams_get (url request) "host") = false ->
  getOfflineId env s <> "" ->
  storage w !! getOfflineId env s = Some offline ->
  (isEmbeddedApp config = true ->
   isString (searchParams_get (url request) "embedded") "1" = false ->
   testQuery env offline = None) ->
  authenticateAndGetSessionContext env config request w
  = (ensureAppIsEmbeddedIfRequired env config request >>>
     ensureSessionTokenSearchParamIfRequired env config request >>>
     ensureSessionExists env config request) w.
Proof.
  intros Hroute Hheader Hshop Hs Hvalid Hhost Hid Hstored Hquery.
  rewrite <- Hshop in Hvalid.
  unfold authenticateAndGetSessionContext. unfold bind at 1.
  rewrite (handleRoutes_pass env config request w Hroute), Hheader.
  unfold bind at 1. rewrite (validateUrlParams_pass request w Hvalid Hhost).
  unfold bind at 1.
  now rewrite (ensureInstalledOnShop_pass request s offline w Hshop Hs Hid Hstored Hquery).
Qed.

End DocumentRequests.

(** X17.  The embedded load of a document: under an embedded
    configuration (of the application and of the api), a request on no
    route path and without a token header, with a shop and a host the
    sanitizers accept, [embedded=1], the application installed on the
    shop, and a valid [id_token] in its query for which an active session
    is stored, is given the embedded context of that session and token;
    the world is as it was. *)
Theorem embedded_document_request_returns_session (env : Env) (config : AppConfig)
    (request : Request) (s tok : string) (offline sess : Session) (payload : JwtPayload)
    (w : World) :
  isEmbeddedApp config = true ->
  apiIsEmbeddedApp env = true ->
  isBot env request = false ->
  method request <> "OPTIONS" ->
  AuthCodeFlowStrategy.isRoute config request = false ->
  truthy (getSessionTokenHeader env request) = false ->
  searchParams_get (url request) "shop" = Some s ->
  s <> "" ->
  missingOrInvalid (sanitizeShop env) (Some s) = false ->
  missingOrInvalid (sanitizeHost env) (searchParams_get (url request) "host") = false ->
  getOfflineId env s <> "" ->
  storage w !! getOfflineId env s = Some offline ->
  searchParams_get (url request) "embedded" = Some "1" ->
  searchParams_get (url request) "id_token" = Some tok ->
  tok <> "" ->
  validateSessionToken env tok = inr payload ->
  AuthStrategy.tokenSessionId env config payload <> "" ->
  storage w !! AuthStrategy.tokenSessionId env config payload = Some sess ->
  isActive env sess (scopes config) = true ->
  AuthStrategy.authenticateAdmin env config request w
  = (Returned (AuthStrategy.EmbeddedAdminContext sess (Some payload)), w).
Proof.
  intros Hembedded Hapi Hbot Hmethod Hroute Hheader Hshop Hs Hvalid Hhost Hid Hinstalled
    Hmark Htoken Htok Hpayload Hsid Hstored Hactive.
  assert (Hsource : AuthStrategy.sessionSource env config request
                    = AuthStrategy.FromSessionToken tok).
  { unfold AuthStrategy.sessionSource, orElse, Helpers.getSessionTokenFromUrlParam.
    rewrite Hembedded, Hheader, Htoken. simpl.
    apply String.eqb_neq in Htok. now rewrite Htok. }
  unfold AuthStrategy.authenticateAdmin, Helpers.rejectBotRequest,
    Helpers.respondToOptionsRequest.
  apply String.eqb_neq in Hmethod. rewrite Hbot, Hmethod.
  unfold bind at 1 2. unfold ret at 1 2. unfold bind at 1, tryCatch.
  rewrite (installed_steps env config request s offline w Hroute Hheader Hshop Hs
             Hvalid Hhost Hid Hinstalled).
  2:{ rewrite Hmark. discriminate. }
  unfold AuthStrategy.ensureAppIsEmbeddedIfRequired,
    AuthStrategy.ensureSessionTokenSearchParamIfRequired, AuthStrategy.ensureSessionExists.
  rewrite Hapi, Hmark, Htoken. simpl.
  apply String.eqb_neq in Htok. rewrite Htok. simpl.
  unfold bind at 1 2 3. unfold ret at 1 2.
  apply String.eqb_neq in Htok.
  rewrite (getAuthenticatedSession_stored env config request tok payload sess w
             Hsource Hpayload Hsid Hstored).
  simpl. rewrite Hactive. simpl. now rewrite Hembedded.
Qed.

Lemma embedded_document_request_returns_session_witness :
  AuthStrategy.authenticateAdmin (Sample.env true) (Sample.config true false)
    (Sample.get "/app"
       [("shop", "test-shop.myshopify.com"); ("host", "aG9zdA"); ("embedded", "1");
        ("id_token", "valid-token")] [])
    Sample.installedWorld
  = (Returned (AuthStrategy.EmbeddedAdminContext Sample.offlineSession (Some Sample.payload)),
     Sample.installedWorld).
Proof.
  apply (embedded_document_request_returns_session (Sample.env true)
           (Sample.config true false)
           (Sample.get "/app"
              [("shop", "test-shop.myshopify.com"); ("host", "aG9zdA"); ("embedded", "1");
               ("id_token", "valid-token")] [])
           "test-shop.myshopify.com" "valid-token" Sample.offlineSession
           Sample.offlineSession Sample.payload Sample.installedWorld);
    try reflexivity; discriminate.
Defined.

(** X18.  An embedded application that is installed and whose offline
    session passes the test query, reached without [embedded=1], is sent
    back into the admin: the decision ends with the redirect of
    [redirectToShopifyOrAppRoot] to the embedded address of the
    application, before any session token is asked for. *)
Theorem unembedded_request_is_embedded (env : Env) (config : AppConfig) (request : Request)
    (s : string) (offline : Session) (w : World) :
  isEmbeddedApp config = true ->
  apiIsEmbeddedApp env = true ->
  AuthCodeFlowStrategy.isRoute config request = false ->
  truthy (getSessionTokenHeader env request) = false ->
  searchParams_get (url request) "shop" = Some s ->
  s <> "" ->
  missingOrInvalid (sanitizeShop env) (Some s) = false ->
  missingOrInvalid (sanitizeHost env) (searchParams_get (url request) "host") = false ->
  getOfflineId env s <> "" ->
  storage w !! getOfflineId env s = Some offline ->
  isString (searchParams_get (url request) "embedded") "1" = false ->
  testQuery env offline = None ->
  AuthStrategy.authenticateAndGetSessionContext env config request w
  = (Threw (ThrownResponse {| status := 302; statusText := "";
                              responseHeaders := [("Location", embeddedAppUrl env request)];
                              body := None |}),
     {| storage := storage w; calls := calls w ++ [ShopifyOrAppRoot] |}).
Proof.
  intros Hembedded Hapi Hroute Hheader Hshop Hs Hvalid Hhost Hid Hinstalled Hmark Hquery.
  rewrite (installed_steps env config request s offline w Hroute Hheader Hshop Hs
             Hvalid Hhost Hid Hinstalled (fun _ _ => Hquery)).
  unfold AuthStrategy.ensureAppIsEmbeddedIfRequired, Helpers.redirectToShopifyOrAppRoot.
  rewrite Hapi, Hmark, Hembedded. reflexivity.
Qed.

Lemma unembedded_request_is_embedded_witness :
  AuthStrategy.authenticateAndGetSessionContext (Sample.env true) (Sample.config true false)
    (Sample.get "/app" [("shop", "test-shop.myshopify.com"); ("host", "aG9zdA")] [])
    Sample.installedWorld
  = (Threw (ThrownResponse
              {| status := 302; statusText := "";
                 responseHeaders :=
                   [("Location", "https://admin.shopify.com/store/test-shop/apps/sample-key")];
                 body := None |}),
     {| storage := storage Sample.installedWorld; calls := [ShopifyOrAppRoot] |}).
Proof.
  apply (unembedded_request_is_embedded (Sample.env true) (Sample.config true false)
           (Sample.get "/app" [("shop", "test-shop.myshopify.com"); ("host", "aG9zdA")] [])
           "test-shop.myshopify.com" Sample.offlineSession Sample.installedWorld);
    try reflexivity; discriminate.
Defined.

(** X20.  The page request of an application that is not embedded: with
    the application installed on the shop of the query and an active
    session stored under the current identifier of the request,
    [authenticateAdmin] returns the plain context of that session.  The
    parameters of the URL are not validated and the offline session is not
    tested on this path. *)
Theorem standalone_request_returns_session (env : Env) (config : AppConfig)
    (request : Request) (s sid : string) (offline sess : Session) (w : World) :
  isEmbeddedApp config = false ->
  apiIsEmbeddedApp env = false ->
  isBot env request = false ->
  method request <> "OPTIONS" ->
  AuthCodeFlowStrategy.isRoute config request = false ->
  truthy (getSessionTokenHeader env request) = false ->
  searchParams_get (url request) "shop" = Some s ->
  s <> "" ->
  getOfflineId env s <> "" ->
  storage w !! getOfflineId env s = Some offline ->
  getCurrentId env (useOnlineTokens config) request = Some sid ->
  sid <> "" ->
  storage w !! sid = Some sess ->
  isActive env sess (scopes config) = true ->
  AuthStrategy.authenticateAdmin env config request w
  = (Returned (AuthStrategy.NonEmbeddedAdminContext sess), w).
Proof.
  intros Hconfig Hapi Hbot Hmethod Hroute Hheader Hshop Hs Hid Hinstalled Hcurrent Hsid
    Hstored Hactive.
  unfold AuthStrategy.authenticateAdmin, Helpers.rejectBotRequest,
    Helpers.respondToOptionsRequest.
  apply String.eqb_neq in Hmethod. rewrite Hbot, Hmethod.
  unfold bind at 1 2. unfold ret at 1 2. unfold bind at 1, tryCatch.
  unfold AuthStrategy.authenticateAndGetSessionContext. unfold bind at 1.
  rewrite (handleRoutes_pass env config request w Hroute), Hheader.
  unfold bind at 1. unfold AuthStrategy.validateUrlParams. rewrite Hconfig.
  unfold ret at 1. unfold bind at 1.
  rewrite (ensureInstalledOnShop_pass env config request s offline w Hshop Hs Hid Hinstalled).
  2:{ rewrite Hconfig. discriminate. }
  unfold AuthStrategy.ensureAppIsEmbeddedIfRequired,
    AuthStrategy.ensureSessionTokenSearchParamIfRequired, AuthStrategy.ensureSessionExists,
    AuthStrategy.getAuthenticatedSession, AuthStrategy.sessionSource.
  rewrite Hapi, Hconfig, andb_false_l. simpl negb. run.
  rewrite Hcurrent. simpl. apply String.eqb_neq in Hsid. rewrite Hsid. simpl.
  rewrite Hstored. simpl. rewrite Hactive. reflexivity.
Qed.

Lemma standalone_request_returns_session_witness :
  AuthStrategy.authenticateAdmin
    {| apiIsEmbeddedApp := false;
       sanitizeShop := ShopGrammar.sanitizeShop;
       sanitizeHost := fun h => Some h;
       getOfflineId := fun shop => "offline_" +:+ shop;
       getJwtSessionId := fun shop user => shop +:+ "_" +:+ user;
       getCurrentId := fun _ _ => Some "offline_test-shop.myshopify.com";
       isActive := Sample.active;
       authCallback := Sample.exchange;
       authorizeUrl := fun _ _ => "https://test-shop.myshopify.com/admin/oauth/authorize";
       embeddedAppUrl := fun _ => "/";
       testQuery := fun _ => None;
       getSessionTokenHeader := Sample.bearer;
       validateSessionToken := fun _ => inl Sample.unauthorized;
       renderAppBridge := fun _ _ => Sample.unauthorized;
       isBot := fun _ => false;
       botResponse := Sample.unauthorized;
       preflightResponse := Sample.unauthorized;
       corsHeaders := fun _ => [];
       encodeComponent := fun x => x |}
    (Sample.config false false)
    (Sample.get "/app" [("shop", "test-shop.myshopify.com")] []) Sample.installedWorld
  = (Returned (AuthStrategy.NonEmbeddedAdminContext Sample.offlineSession),
     Sample.installedWorld).
Proof.
  apply (standalone_request_returns_session _ (Sample.config false false)
           (Sample.get "/app" [("shop", "test-shop.myshopify.com")] [])
           "test-shop.myshopify.com" "offline_test-shop.myshopify.com"
           Sample.offlineSession Sample.offlineSession Sample.installedWorld);
    try reflexivity; discriminate.
Defined.

(** X21.  The bounce and exit-iframe pages are served first and as they
    are asked for: on the bounce path the answer is the App Bridge page,
    whatever the other paths are; on the exit-iframe path it is the App
    Bridge page for the destination of the [exitIframe] parameter, taken
    from the query as it is (also when it is missing).  Neither looks at
    the shop, the storage or the session token. *)
Theorem bridge_routes_come_first (env : Env) (config : AppConfig) (request : Request)
    (w : World) :
  (pathname (url request) = patchSessionTokenPath (auth config) ->
   AuthCodeFlowStrategy.handleRoutes env config request w
   = (Threw (ThrownResponse (renderAppBridge env request None)), w))
  /\ (pathname (url request) <> patchSessionTokenPath (auth config) ->
      pathname (url request) = exitIframePath (auth config) ->
      AuthCodeFlowStrategy.handleRoutes env config request w
      = (Threw (ThrownResponse
                  (renderAppBridge env request
                     (Some (searchParams_get (url request) "exitIframe")))), w)).
Proof.
  unfold AuthCodeFlowStrategy.handleRoutes, AuthCodeFlowStrategy.handleBouncePageRoute,
    AuthCodeFlowStrategy.handleExitIframeRoute.
  split.
  - intros ->. rewrite String.eqb_refl. reflexivity.
  - intros Hbounce Hexit. apply String.eqb_neq in Hbounce. rewrite Hbounce.
    rewrite Hexit, String.eqb_refl. reflexivity.
Qed.

Lemma bridge_routes_come_first_witness :
  AuthCodeFlowStrategy.handleRoutes (Sample.env true) (Sample.config true false)
    (Sample.get "/auth/exit-iframe" [("exitIframe", "https://elsewhere.example/")] [])
    Sample.emptyWorld
  = (Threw (ThrownResponse
              (renderAppBridge (Sample.env true)
                 (Sample.get "/auth/exit-iframe"
                    [("exitIframe", "https://elsewhere.example/")] [])
                 (Some (Some "https://elsewhere.example/")))),
     Sample.emptyWorld).
Proof.
  apply (proj2 (bridge_routes_come_first (Sample.env true) (Sample.config true false)
                  (Sample.get "/auth/exit-iframe"
                     [("exitIframe", "https://elsewhere.example/")] [])
                  Sample.emptyWorld)); [discriminate|reflexivity].
Defined.

(** X14.  Under a configuration that is not embedded, the parameters of
    the URL are not validated, so a request that names no shop gets as far
    as the look-up of the offline session.  From the top: a request on no
    route path, past the bot and preflight guard, without a token header,
    without a (non-empty) shop in its query and without a current session
    identifier makes [authenticateAdmin] end with the 400 "Bad Request",
    with the CORS headers of the request; the world is as it was. *)
Theorem unknown_shop_request_is_bad_request (env : Env) (config : AppConfig)
    (request : Request) (w : World) :
  isEmbeddedApp config = false ->
  isBot env request = false ->
  method request <> "OPTIONS" ->
  AuthCodeFlowStrategy.isRoute config request = false ->
  truthy (getSessionTokenHeader env request) = false ->
  truthy (searchParams_get (url request) "shop") = false ->
  truthy (getCurrentId env false request) = false ->
  AuthStrategy.authenticateAdmin env config request w
  = (Threw (ThrownResponse
              (Helpers.cors env request
                 {| status := 400; statusText := "Bad Request";
                    responseHeaders := []; body := None |})), w).
Proof.
  intros Hconfig Hbot Hmethod Hroute Hheader Hshop Hcurrent.
  unfold AuthStrategy.authenticateAdmin, Helpers.rejectBotRequest,
    Helpers.respondToOptionsRequest.
  apply String.eqb_neq in Hmethod. rewrite Hbot, Hmethod.
  unfold bind at 1 2. unfold ret at 1 2. unfold bind at 1, tryCatch.
  unfold AuthStrategy.authenticateAndGetSessionContext. unfold bind at 1.
  rewrite (handleRoutes_pass env config request w Hroute), Hheader.
  unfold bind at 1. unfold AuthStrategy.validateUrlParams. rewrite Hconfig.
  unfold ret at 1. unfold bind at 1.
  now rewrite (unknown_shop_is_bad_request env config request w Hshop Hcurrent).
Qed.

Lemma unknown_shop_request_is_bad_request_witness :
  AuthStrategy.authenticateAdmin (Sample.env false) (Sample.config false false)
    (Sample.get "/app" [("shop", "")] []) Sample.installedWorld
  = (Threw (ThrownResponse {| status := 400; statusText := "Bad Request";
                              responseHeaders := []; body := None |}),
     Sample.installedWorld).
Proof.
  apply (unknown_shop_request_is_bad_request (Sample.env false) (Sample.config false false)
           (Sample.get "/app" [("shop", "")] []) Sample.installedWorld);
    try reflexivity; discriminate.
Defined.



(** X19.  The shop of a re-authentication is the shop of the token: when
    the header carries a valid token and the session it names is missing
    from the storage or not active, the decision hands the request to
    [redirectToAuthPage] with the host of the token's destination as the
    shop, whatever the query of the request says, and nothing is stored or
    called before that. *)
Theorem stale_session_reauthenticates_token_shop (env : Env) (config : AppConfig)
    (request : Request) (tok : string) (payload : JwtPayload) (w : World) :
  isEmbeddedApp config = true ->
  AuthCodeFlowStrategy.isRoute config request = false ->
  getSessionTokenHeader env request = Some tok ->
  tok <> "" ->
  validateSessionToken env tok = inr payload ->
  match storage w !! AuthStrategy.tokenSessionId env config payload with
  | Some s => isActive env s (scopes config) = false
  | None => True
  end ->
  AuthStrategy.authenticateAndGetSessionContext env config request w
  = Helpers.redirectToAuthPage env config request (Some (hostname (dest payload))) w.
Proof.
  intros Hembedded Hroute Hheader Htok Hvalid Hstale.
  pose proof (sessionSource_header env config request tok Hembedded Hheader Htok) as Hsource.
  unfold AuthStrategy.authenticateAndGetSessionContext. unfold bind at 1.
  rewrite (handleRoutes_pass env config request w Hroute), Hheader.
  apply String.eqb_neq in Htok.
  change (truthy (Some tok)) with (negb (String.eqb tok "")). rewrite Htok.
  change (negb false) with true. cbv iota.
  unfold AuthStrategy.getAuthenticatedSession. rewrite Hsource, Hvalid.
  unfold AuthCodeFlowStrategy.manageAccessToken, AuthStrategy.getShopFromSessionToken.
  run.
  destruct (negb (negb (String.eqb (AuthStrategy.tokenSessionId env config payload) "")));
    simpl; [reflexivity|].
  destruct (storage w !! AuthStrategy.tokenSessionId env config payload) as [s|]; simpl.
  - now rewrite Hstale.
  - reflexivity.
Qed.

Lemma stale_session_reauthenticates_token_shop_witness :
  AuthStrategy.authenticateAndGetSessionContext (Sample.env true) (Sample.config true false)
    (Sample.get "/app" [("shop", "other-shop.myshopify.com")]
       [("authorization", "Bearer valid-token")])
    Sample.emptyWorld
  = Helpers.redirectToAuthPage (Sample.env true) (Sample.config true false)
      (Sample.get "/app" [("shop", "other-shop.myshopify.com")]
         [("authorization", "Bearer valid-token")])
      (Some "test-shop.myshopify.com") Sample.emptyWorld.
Proof.
  apply (stale_session_reauthenticates_token_shop (Sample.env true)
           (Sample.config true false)
           (Sample.get "/app" [("shop", "other-shop.myshopify.com")]
              [("authorization", "Bearer valid-token")])
           "valid-token" Sample.payload Sample.emptyWorld
           eq_refl eq_refl eq_refl ltac:(discriminate) eq_refl I).
Defined.
